(** * bno055_ros2: the IMU publisher node and its supervisor

    A shallow embedding of [src/bno055_publisher.cpp]: the message buffer
    [sensor_msgs::msg::Imu], the constructor of [MinimalPublisher] with its
    covariance loop, the periodic [timer_callback], and [main] with its
    argument handling and its connection loop.

    Doubles are the kernel's binary64 floats; the program only stores and
    copies them.  The BNO055 driver, the clock, the parameter provider and
    the process-wide [rclcpp::ok()] flag are collaborators of the program and
    enter through the [Platform] interface. *)

From Stdlib Require Import ZArith String Ascii Floats.PrimFloat.
From stdpp Require Import base option list gmap strings.

Set Warnings "-inexact-float".
Local Open Scope string_scope.
Local Open Scope list_scope.
Local Open Scope Z_scope.

(** ** Messages *)

Record Vector3 : Type := mkVector3 { v_x : float; v_y : float; v_z : float }.

Record Quaternion : Type :=
  mkQuaternion { q_x : float; q_y : float; q_z : float; q_w : float }.

(** Time stamps and durations are counted in milliseconds. *)
Definition Time : Type := Z.

Record Header : Type := mkHeader { stamp : Time; frame_id : string }.

(** [sensor_msgs::msg::Imu]; each covariance is a [std::array<double, 9>]. *)
Record Imu : Type := mkImu {
  header : Header;
  orientation : Quaternion;
  orientation_covariance : list float;
  angular_velocity : Vector3;
  angular_velocity_covariance : list float;
  linear_acceleration : Vector3;
  linear_acceleration_covariance : list float
}.

#[global] Instance float_inhabited : Inhabited float := populate 0%float.

(** The value-initialised message [sensor_msgs::msg::Imu()]. *)
Definition Imu_default : Imu :=
  {| header := {| stamp := 0; frame_id := "" |};
     orientation := mkQuaternion 0 0 0 1;
     orientation_covariance := replicate 9 0%float;
     angular_velocity := mkVector3 0 0 0;
     angular_velocity_covariance := replicate 9 0%float;
     linear_acceleration := mkVector3 0 0 0;
     linear_acceleration_covariance := replicate 9 0%float |}.

Definition set_header (h : Header) (m : Imu) : Imu :=
  {| header := h;
     orientation := orientation m;
     orientation_covariance := orientation_covariance m;
     angular_velocity := angular_velocity m;
     angular_velocity_covariance := angular_velocity_covariance m;
     linear_acceleration := linear_acceleration m;
     linear_acceleration_covariance := linear_acceleration_covariance m |}.

Definition set_stamp (t : Time) (m : Imu) : Imu :=
  set_header {| stamp := t; frame_id := frame_id (header m) |} m.

Definition set_frame_id (f : string) (m : Imu) : Imu :=
  set_header {| stamp := stamp (header m); frame_id := f |} m.

Definition set_linear_acceleration (v : Vector3) (m : Imu) : Imu :=
  {| header := header m;
     orientation := orientation m;
     orientation_covariance := orientation_covariance m;
     angular_velocity := angular_velocity m;
     angular_velocity_covariance := angular_velocity_covariance m;
     linear_acceleration := v;
     linear_acceleration_covariance := linear_acceleration_covariance m |}.

Definition set_angular_velocity (v : Vector3) (m : Imu) : Imu :=
  {| header := header m;
     orientation := orientation m;
     orientation_covariance := orientation_covariance m;
     angular_velocity := v;
     angular_velocity_covariance := angular_velocity_covariance m;
     linear_acceleration := linear_acceleration m;
     linear_acceleration_covariance := linear_acceleration_covariance m |}.

Definition set_orientation (q : Quaternion) (m : Imu) : Imu :=
  {| header := header m;
     orientation := q;
     orientation_covariance := orientation_covariance m;
     angular_velocity := angular_velocity m;
     angular_velocity_covariance := angular_velocity_covariance m;
     linear_acceleration := linear_acceleration m;
     linear_acceleration_covariance := linear_acceleration_covariance m |}.

(** The three simultaneous stores of one iteration of the covariance loop. *)
Definition set_covariances (i : nat) (gyro accel quat : float) (m : Imu) : Imu :=
  {| header := header m;
     orientation := orientation m;
     orientation_covariance := <[i := quat]> (orientation_covariance m);
     angular_velocity := angular_velocity m;
     angular_velocity_covariance := <[i := gyro]> (angular_velocity_covariance m);
     linear_acceleration := linear_acceleration m;
     linear_acceleration_covariance :=
       <[i := accel]> (linear_acceleration_covariance m) |}.

(** ** The covariance loop of the constructor (lines 28-42) *)

Definition accelCovariance : list float :=
  [67.53e-06; 67.53e-06; 67.53e-06]%float.
Definition gyroCovariance : list float :=
  [3.05e-06; 3.05e-06; 3.05e-06]%float.
Definition quatCovariance : list float :=
  [15.9e-03; 15.9e-03; 15.9e-03]%float.

(** The body of [for (size_t i = 0; ...; i++)]. *)
Definition covariance_body (m : Imu) (i : nat) : Imu :=
  if decide (i mod 3 = 0)%nat then
    set_covariances i (gyroCovariance !!! (i / 3)%nat)
                      (accelCovariance !!! (i / 3)%nat)
                      (quatCovariance !!! (i / 3)%nat) m
  else
    set_covariances i 0%float 0%float 0%float m.

(** The loop runs [i] over [0 .. angular_velocity_covariance.size() - 1]. *)
Definition covariance_loop (m : Imu) : Imu :=
  foldl covariance_body m (seq 0 (length (angular_velocity_covariance m))).

(** The row-major diagonal of a 3x3 matrix filled with [c]. *)
Definition diagonal3 (c : float) : list float :=
  [c; 0; 0; 0; c; 0; 0; 0; c]%float.

(** The first column of a row-major 3x3 matrix filled with [c]. *)
Definition first_column3 (c : float) : list float :=
  [c; 0; 0; c; 0; 0; c; 0; 0]%float.

(** ** Effects: state, exceptions and an event trace *)

(** The exception classes the program names.  [std::invalid_argument] and
    [std::out_of_range] derive from [std::logic_error], so none of the three
    is caught by a handler for another. *)
Inductive exn : Set := runtime_error | invalid_argument | out_of_range.

#[global] Instance exn_eq_dec : EqDecision exn.
Proof. solve_decision. Defined.

(** How a computation ends; [OutOfFuel] marks a loop cut off by the bound the
    model puts on its iterations. *)
Inductive outcome (A : Type) : Type :=
| Returned (a : A)
| Thrown (e : exn)
| OutOfFuel.
Arguments Returned {A} a.
Arguments Thrown {A} e.
Arguments OutOfFuel {A}.

(** What an observer of the process sees. *)
Inductive Event : Type :=
| EvLogError (msg : string)
| EvOpen (devDirectory : string) (devAddress : Z) (opened : bool)
| EvDeclareParameter (name dflt : string)
| EvCreatePublisher (topic : string)
| EvCreateTimer (period : Z)
| EvNodeConstructed
| EvNodeDestroyed
| EvReconnect (restored : bool)
| EvSleep (duration : Z)
| EvTick
| EvPublish (msg : Imu)
| EvShutdown.

(** A computation over a state [S]: it ends in an outcome, leaves a state
    (also when it throws: stores made before a throw stay made) and emits
    events. *)
Definition M (S A : Type) : Type := S -> outcome A * S * list Event.

#[global] Instance M_ret {S} : MRet (M S) :=
  fun A (a : A) s => (Returned a, s, []).

#[global] Instance M_bind {S} : MBind (M S) :=
  fun A B (f : A -> M S B) (m : M S A) s =>
    match m s with
    | (Returned a, s1, tr1) =>
        let '(r, s2, tr2) := f a s1 in (r, s2, tr1 ++ tr2)
    | (Thrown e, s1, tr1) => (Thrown e, s1, tr1)
    | (OutOfFuel, s1, tr1) => (OutOfFuel, s1, tr1)
    end.

Definition throw {S A} (e : exn) : M S A := fun s => (Thrown e, s, []).

Definition out_of_fuel {S A} : M S A := fun s => (OutOfFuel, s, []).

Definition emit {S} (e : Event) : M S unit := fun s => (Returned tt, s, [e]).

(** [try { body } catch (caught&) { handler }]. *)
Definition try_catch {S A} (body : M S A) (caught : exn) (handler : M S A)
  : M S A :=
  fun s =>
    match body s with
    | (Thrown e, s1, tr1) =>
        if decide (e = caught)
        then let '(r, s2, tr2) := handler s1 in (r, s2, tr1 ++ tr2)
        else (Thrown e, s1, tr1)
    | r => r
    end.

(** A state made of a local part [X] (an object's fields, or the locals of
    [main]) and the world [W]. *)
Definition on_world {X W A} (m : M W A) : M (X * W) A :=
  fun '(x, w) => let '(r, w', tr) := m w in (r, (x, w'), tr).

Definition get_local {X W} : M (X * W) X :=
  fun '(x, w) => (Returned x, (x, w), []).

Definition modify_local {X W} (f : X -> X) : M (X * W) unit :=
  fun '(x, w) => (Returned tt, (f x, w), []).

(** Runs a member function of the object [p] held by an optional pointer. *)
Definition with_object {X W A} (p : X) (m : M (X * W) A)
  : M (option X * W) A :=
  fun '(_, w) => let '(r, (p', w'), tr) := m (p, w) in (r, (Some p', w'), tr).

(** ** The collaborators *)

(** The driver [imu::BNO055] (its constructor, three reads and [reconnect]),
    the node's clock, [std::this_thread::sleep_for], [rclcpp::ok()] and the
    parameter overrides of the node.  A read and the constructor may throw;
    [reconnect] answers with a boolean. *)
Class Platform (W : Type) : Type := {
  BNO055_open : string -> Z -> W -> (exn + unit) * W;
  getAccelMsq : W -> (exn + Vector3) * W;
  getGyroRps : W -> (exn + Vector3) * W;
  getQuaternion : W -> (exn + Quaternion) * W;
  reconnect : W -> bool * W;
  clock_now : W -> Time;
  sleep_for : Z -> W -> W;
  rclcpp_ok : W -> bool;
  parameter_overrides : W -> gmap string string
}.

Definition of_result {A} (r : exn + A) : outcome A :=
  match r with inl e => Thrown e | inr a => Returned a end.

Definition is_ok {A} (r : exn + A) : bool :=
  match r with inl _ => false | inr _ => true end.

Section Program.
Context {W : Type} `{Platform W}.

Definition call {A} (op : W -> (exn + A) * W) : M W A :=
  fun w => let '(r, w') := op w in (of_result r, w', []).

(** [RCLCPP_ERROR(logger, text)]: the event keeps the text without the
    newline that ends it in the source. *)
Definition RCLCPP_ERROR {S} (msg : string) : M S unit := emit (EvLogError msg).

Definition now : M W Time := fun w => (Returned (clock_now w), w, []).

Definition ok : M W bool := fun w => (Returned (rclcpp_ok w), w, []).

Definition this_thread_sleep_for (d : Z) : M W unit :=
  fun w => (Returned tt, sleep_for d w, [EvSleep d]).

Definition imu_open (devDirectory : string) (devAddress : Z) : M W unit :=
  fun w =>
    let '(r, w') := BNO055_open devDirectory devAddress w in
    (of_result r, w', [EvOpen devDirectory devAddress (is_ok r)]).

Definition imu_reconnect : M W bool :=
  fun w => let '(b, w') := reconnect w in (Returned b, w', [EvReconnect b]).

(** [declare_parameter(name, dflt)]: the override when there is one, else
    the default. *)
Definition declare_parameter (name dflt : string) : M W string :=
  fun w => (Returned (default dflt (parameter_overrides w !! name)), w,
            [EvDeclareParameter name dflt]).

(** ** The node *)

(** The data members of [MinimalPublisher] that the program reads and
    writes; the driver object [imu_] lives in the world. *)
Record MinimalPublisher : Type := mkNode {
  imuMsg_ : Imu;
  frameId_ : string
}.

Definition set_imuMsg (f : Imu -> Imu) (p : MinimalPublisher) : MinimalPublisher :=
  {| imuMsg_ := f (imuMsg_ p); frameId_ := frameId_ p |}.

(** The constructor (lines 18-43): the member initialiser [imu_(...)] opens
    the device and may throw; then the body runs. *)
Definition MinimalPublisher_new (devDirectory : string) (devAddress : Z)
  : M W MinimalPublisher :=
  imu_open devDirectory devAddress;;
  frameId ← declare_parameter "frame_id" "imu_link";
  emit (EvCreatePublisher "imu");;
  emit (EvCreateTimer 10);;
  mret {| imuMsg_ := covariance_loop Imu_default; frameId_ := frameId |}.

(** [publisher_->publish(imuMsg_)]: the channel takes a copy. *)
Definition publish : M (MinimalPublisher * W) unit :=
  p ← get_local;
  emit (EvPublish (imuMsg_ p)).

(** [timer_callback] (lines 46-78). *)
Definition timer_callback : M (MinimalPublisher * W) unit :=
  try_catch
    (t ← on_world now;
     modify_local (set_imuMsg (set_stamp t));;
     p ← get_local;
     modify_local (set_imuMsg (set_frame_id (frameId_ p)));;
     accel ← on_world (call getAccelMsq);
     gyro ← on_world (call getGyroRps);
     quats ← on_world (call getQuaternion);
     modify_local (set_imuMsg (set_linear_acceleration
       (mkVector3 (v_x accel) (v_y accel) (v_z accel))));;
     modify_local (set_imuMsg (set_angular_velocity
       (mkVector3 (v_x gyro) (v_y gyro) (v_z gyro))));;
     modify_local (set_imuMsg (set_orientation
       (mkQuaternion (q_x quats) (q_y quats) (q_z quats) (q_w quats))));;
     publish)
    runtime_error
    (RCLCPP_ERROR "Sensor connection is lost! Trying to reconnect...";;
     restored ← on_world imu_reconnect;
     if negb restored then on_world (this_thread_sleep_for 1000)
     else mret tt).

(** The three reads of one tick, in the order of the callback. *)
Definition reads (w : W) : outcome (Vector3 * Vector3 * Quaternion) * W :=
  let '(r, w', _) :=
    (accel ← call getAccelMsq;
     gyro ← call getGyroRps;
     quats ← call getQuaternion;
     mret (accel, gyro, quats)) w in
  (r, w').

(** The 10-unit wall timer expires: time passes, then the callback is due. *)
Definition wait_for_timer : M W unit :=
  fun w => (Returned tt, sleep_for 10 w, [EvTick]).

(** [n] consecutive ticks; for each one, the state in which the callback was
    entered and the events the callback produced.  A callback that lets an
    exception escape ends the run. *)
Fixpoint ticks (n : nat) (s : MinimalPublisher * W)
  : list ((MinimalPublisher * W) * list Event) :=
  match n with
  | O => []
  | S n' =>
      let s1 := (s.1, sleep_for 10 s.2) in
      let '(r, s', tr) := timer_callback s1 in
      (s1, tr) :: match r with Returned _ => ticks n' s' | _ => [] end
  end.

(** Modelled from the spec: [rclcpp::spin] is the transport's blocking event
    loop; it invokes the timer callback on each tick of the 10-unit timer
    until the should-continue-running condition becomes false. *)
Fixpoint spin (fuel : nat) : M (MinimalPublisher * W) unit :=
  match fuel with
  | O => out_of_fuel
  | S fuel' =>
      running ← on_world ok;
      if running : bool then
        on_world wait_for_timer;;
        timer_callback;;
        spin fuel'
      else mret tt
  end.

End Program.

(** ** Parsing the bus address *)

(** [std::stoul(str, nullptr, 16)] is the C++ library's.  Its contract
    ([strtoul] with base 16, [unsigned long] of 64 bits): leading white space
    is skipped, then an optional sign and an optional [0x] or [0X]; the
    longest run of hexadecimal digits is converted and what follows it is
    ignored.  No digit at all throws [std::invalid_argument]; a value above
    [ULONG_MAX] throws [std::out_of_range]; a minus sign negates the value
    in [unsigned long]. *)
Definition ULONG_MAX : Z := 2 ^ 64 - 1.

Definition isspace (c : ascii) : bool :=
  let n := Z.of_N (N_of_ascii c) in
  (n =? 32) || ((9 <=? n) && (n <=? 13)).

Definition hex_digit (c : ascii) : option Z :=
  let n := Z.of_N (N_of_ascii c) in
  if (48 <=? n) && (n <=? 57) then Some (n - 48)
  else if (97 <=? n) && (n <=? 102) then Some (n - 87)
  else if (65 <=? n) && (n <=? 70) then Some (n - 55)
  else None.

Fixpoint skip_spaces (s : string) : string :=
  match s with
  | String c s' => if isspace c then skip_spaces s' else s
  | EmptyString => s
  end.

Definition split_sign (s : string) : bool * string :=
  match s with
  | String "-" s' => (true, s')
  | String "+" s' => (false, s')
  | _ => (false, s)
  end.

Definition skip_0x (s : string) : string :=
  match s with
  | String "0" (String x (String d s')) =>
      if (Ascii.eqb x "x" || Ascii.eqb x "X") && bool_decide (is_Some (hex_digit d))
      then String d s' else s
  | _ => s
  end.

Fixpoint hex_digits (s : string) : list Z :=
  match s with
  | String c s' =>
      match hex_digit c with
      | Some d => d :: hex_digits s'
      | None => []
      end
  | EmptyString => []
  end.

Definition hex_value (ds : list Z) : Z :=
  foldl (fun acc d => 16 * acc + d) 0 ds.

Definition stoul16 (str : string) : exn + Z :=
  let '(negative, s) := split_sign (skip_spaces str) in
  match hex_digits (skip_0x s) with
  | [] => inl invalid_argument
  | ds =>
      let v := hex_value ds in
      if v >? ULONG_MAX then inl out_of_range
      else inr (if negative : bool then (- v) mod (ULONG_MAX + 1) else v)
  end.

(** The text [printf] puts for [%5s]: the argument, padded on the left with
    spaces to five characters. *)
Definition pad5 (s : string) : string :=
  String.concat "" (replicate (5 - String.length s)%nat " ") +:+ s.

Definition dquote : string := String (ascii_of_nat 34) EmptyString.

Definition not_a_proper_address (arg : string) : string :=
  "Argument " +:+ dquote +:+ pad5 arg +:+ dquote +:+ " is not a proper I2C adress!".

(** ** The supervisor *)

Section Supervisor.
Context {W : Type} `{Platform W}.

(** [std::make_shared<MinimalPublisher>(devDirectory, devAddress)]: once the
    constructor has returned, a new node exists. *)
Definition make_shared_MinimalPublisher (devDirectory : string) (devAddress : Z)
  : M W MinimalPublisher :=
  p ← MinimalPublisher_new devDirectory devAddress;
  emit EvNodeConstructed;;
  mret p.

(** [node = <new pointer>]: the variable takes the new node, and the node it
    held before, whose only owner it was, is destroyed. *)
Definition assign_node (p : MinimalPublisher)
  : M (option MinimalPublisher * W) unit :=
  old ← get_local;
  modify_local (fun _ => Some p);;
  if old is Some _ then emit EvNodeDestroyed else mret tt.

(** The locals of [main] go out of scope. *)
Definition release_node : M (option MinimalPublisher * W) unit :=
  old ← get_local;
  modify_local (fun _ => None);;
  if old is Some _ then emit EvNodeDestroyed else mret tt.

(** The loop [while (rclcpp::ok()) { ... }] of lines 114-122. *)
Fixpoint connect_loop (fuel : nat) (devDirectory : string) (devAddress : Z)
  : M (option MinimalPublisher * W) unit :=
  match fuel with
  | O => out_of_fuel
  | S fuel' =>
      running ← on_world ok;
      if running : bool then
        try_catch
          (p ← on_world (make_shared_MinimalPublisher devDirectory devAddress);
           assign_node p)
          runtime_error
          (RCLCPP_ERROR "Cannot connect to I2C device!");;
        on_world (this_thread_sleep_for 1000);;
        connect_loop fuel' devDirectory devAddress
      else mret tt
  end.

(** Lines 98-111: the address, or the status [main] returns at once. *)
Definition parse_address (arg : string) : M (option MinimalPublisher * W) (Z + Z) :=
  try_catch
    (devAdressInput ← (fun s => (of_result (stoul16 arg), s, []));
     if devAdressInput >? 255 then
       RCLCPP_ERROR "Device I2C adress is not valid!";;
       mret (inl (-1))
     else
       mret (inr (devAdressInput mod 256)))
    invalid_argument
    (RCLCPP_ERROR (not_a_proper_address arg);;
     mret (inl (-1))).

(** [main]; [argv] lists the program name and its arguments, [argc] is its
    length.  [fuel] bounds the iterations of each loop. *)
Definition main (fuel : nat) (argv : list string)
  : M (option MinimalPublisher * W) Z :=
  if decide (length argv <> 3%nat) then
    RCLCPP_ERROR "Invalid command line arguments!";;
    mret (-1)
  else
    let devDirectory := argv !!! 1%nat in
    parsed ← parse_address (argv !!! 2%nat);
    match parsed with
    | inl status => mret status
    | inr devAddress =>
        connect_loop fuel devDirectory devAddress;;
        node ← get_local;
        (if node is Some p then with_object p (spin fuel) else mret tt);;
        emit EvShutdown;;
        release_node;;
        mret 0
    end.

End Supervisor.


(** ** Reading a trace *)

Definition published (tr : list Event) : list Imu :=
  omap (fun e => if e is EvPublish m then Some m else None) tr.

Definition reconnects (tr : list Event) : list bool :=
  omap (fun e => if e is EvReconnect b then Some b else None) tr.

Definition sleeps (tr : list Event) : list Z :=
  omap (fun e => if e is EvSleep d then Some d else None) tr.

Definition opens (tr : list Event) : list bool :=
  omap (fun e => if e is EvOpen _ _ b then Some b else None) tr.

Definition declared (tr : list Event) : list (string * string) :=
  omap (fun e => if e is EvDeclareParameter n d then Some (n, d) else None) tr.

Definition logged (tr : list Event) : list string :=
  omap (fun e => if e is EvLogError s then Some s else None) tr.

Definition constructions (tr : list Event) : nat :=
  length (omap (fun e => if e is EvNodeConstructed then Some tt else None) tr).

Definition destructions (tr : list Event) : nat :=
  length (omap (fun e => if e is EvNodeDestroyed then Some tt else None) tr).

Definition timer_ticks (tr : list Event) : nat :=
  length (omap (fun e => if e is EvTick then Some tt else None) tr).

(** The nodes alive once the events of [tr] have happened. *)
Definition live (tr : list Event) : Z :=
  Z.of_nat (constructions tr) - Z.of_nat (destructions tr).

(** ** A bench: a scripted device, clock and shutdown time *)

Module Bench.

Record bench : Type := mkBench {
  link_up : bool;
  open_plan : list bool;
  reconnect_plan : list bool;
  clock : Z;
  shutdown_at : Z;
  overrides : gmap string string
}.

Definition accel_sample : Vector3 := mkVector3 0.5 (-0.25) 9.75.
Definition gyro_sample : Vector3 := mkVector3 0.125 0 (-0.5).
Definition quat_sample : Quaternion := mkQuaternion 0 0 0.5 0.5.

Definition read {A} (a : A) (b : bench) : (exn + A) * bench :=
  (if link_up b then inr a else inl runtime_error, b).

Definition bench_open (dir : string) (addr : Z) (b : bench) : (exn + unit) * bench :=
  let up := hd true (open_plan b) in
  (if up then inr tt else inl runtime_error,
   {| link_up := up; open_plan := tail (open_plan b);
      reconnect_plan := reconnect_plan b; clock := clock b;
      shutdown_at := shutdown_at b; overrides := overrides b |}).

Definition bench_reconnect (b : bench) : bool * bench :=
  let up := hd false (reconnect_plan b) in
  (up,
   {| link_up := up; open_plan := open_plan b;
      reconnect_plan := tail (reconnect_plan b); clock := clock b;
      shutdown_at := shutdown_at b; overrides := overrides b |}).

Definition bench_sleep (d : Z) (b : bench) : bench :=
  {| link_up := link_up b; open_plan := open_plan b;
     reconnect_plan := reconnect_plan b; clock := clock b + d;
     shutdown_at := shutdown_at b; overrides := overrides b |}.

#[global] Instance bench_platform : Platform bench := {|
  BNO055_open := bench_open;
  getAccelMsq := read accel_sample;
  getGyroRps := read gyro_sample;
  getQuaternion := read quat_sample;
  reconnect := bench_reconnect;
  clock_now := clock;
  sleep_for := bench_sleep;
  rclcpp_ok := fun b => clock b <? shutdown_at b;
  parameter_overrides := overrides
|}.

(** A bench whose device is present and which shuts down at [stop]. *)
Definition healthy (stop : Z) : bench :=
  {| link_up := true; open_plan := []; reconnect_plan := [];
     clock := 0; shutdown_at := stop; overrides := ∅ |}.

(** A bench whose link is down and whose reconnects follow [plan]. *)
Definition unplugged (plan : list bool) : bench :=
  {| link_up := false; open_plan := []; reconnect_plan := plan;
     clock := 0; shutdown_at := 100000; overrides := ∅ |}.

(** A healthy bench whose parameter provider overrides [frame_id]. *)
Definition configured : bench :=
  {| link_up := true; open_plan := []; reconnect_plan := [];
     clock := 0; shutdown_at := 100000;
     overrides := {[ "frame_id" := "imu_top" ]} |}.

Definition a_node : MinimalPublisher :=
  {| imuMsg_ := covariance_loop Imu_default; frameId_ := "imu_link" |}.

End Bench.

(** ** The buffer after a tick *)

(** The buffer after a tick whose reads returned [a], [g] and [q] at time [t]. *)
Definition sampled (t : Time) (a g : Vector3) (q : Quaternion)
    (p : MinimalPublisher) : MinimalPublisher :=
  set_imuMsg (fun m =>
    set_orientation q (set_angular_velocity g (set_linear_acceleration a
      (set_frame_id (frameId_ p) (set_stamp t m))))) p.

(** The buffer after a tick whose reads threw: only the header is new. *)
Definition stamped (t : Time) (p : MinimalPublisher) : MinimalPublisher :=
  set_imuMsg (fun m => set_frame_id (frameId_ p) (set_stamp t m)) p.

Section Spec.
Context {W : Type} `{Platform W}.

(** Every way a tick can go. *)
Inductive tick_spec (p : MinimalPublisher) (w : W)
  : outcome unit * (MinimalPublisher * W) * list Event -> Prop :=
| tick_published a g q w' :
    reads w = (Returned (a, g, q), w') ->
    tick_spec p w
      (Returned tt, (sampled (clock_now w) a g q p, w'),
       [EvPublish (imuMsg_ (sampled (clock_now w) a g q p))])
| tick_recovering w1 w2 tr :
    reads w = (Thrown runtime_error, w1) ->
    published tr = [] ->
    declared tr = [] ->
    tick_spec p w (Returned tt, (stamped (clock_now w) p, w2), tr)
| tick_escaped e w1 :
    reads w = (Thrown e, w1) -> e <> runtime_error ->
    tick_spec p w (Thrown e, (stamped (clock_now w) p, w1), []).

End Spec.

(** The events of a run, tick after tick. *)
Definition trace_of {S} (h : list (S * list Event)) : list Event :=
  concat (map snd h).

(** ** More readers of a trace, and a driver that throws *)

(** The device path and address of each open attempt. *)
Definition open_targets (tr : list Event) : list (string * Z) :=
  omap (fun e => if e is EvOpen d a _ then Some (d, a) else None) tr.

(** The nodes a pointer variable holds: one or none. *)
Definition held (node : option MinimalPublisher) : Z :=
  if node is Some _ then 1 else 0.

(** [tr0] happened, then the computation [x] ran. *)
Definition after {S A} (tr0 : list Event) (x : outcome A * S * list Event)
  : outcome A * S * list Event :=
  let '(r, s, tr) := x in (r, s, tr0 ++ tr).

Module Faulty.

(** A platform whose driver throws [e] from the constructor and from every
    read; its world is the clock, and shutdown comes at 3000. *)
Definition platform (e : exn) : Platform Z := {|
  BNO055_open := fun _ _ t => (inl e, t);
  getAccelMsq := fun t => (inl e, t);
  getGyroRps := fun t => (inl e, t);
  getQuaternion := fun t => (inl e, t);
  reconnect := fun t => (false, t);
  clock_now := fun t => t;
  sleep_for := fun d t => t + d;
  rclcpp_ok := fun t => t <? 3000;
  parameter_overrides := fun _ => ∅
|}.

End Faulty.

Section Constructed.
Context {W : Type} `{Platform W}.

(** The node the constructor builds in a world [w1] where the device is
    open. *)
Definition constructed (w1 : W) : MinimalPublisher :=
  {| imuMsg_ := covariance_loop Imu_default;
     frameId_ := default "imu_link" (parameter_overrides w1 !! "frame_id") |}.

End Constructed.

(** A bench whose device is absent at the first open and present afterwards;
    shutdown comes at 2500. *)
Definition flaky_bench : Bench.bench :=
  {| Bench.link_up := false; Bench.open_plan := [false; true];
     Bench.reconnect_plan := []; Bench.clock := 0;
     Bench.shutdown_at := 2500; Bench.overrides := ∅ |}.

(** The command line of the launch file: the bus and the address 0x28. *)
Definition usual_argv : list string :=
  ["bno055_publisher"; "/dev/i2c-1"; "28"].





(** ** The covariance loop: what it stores *)

Lemma accel_constant_nonzero : 67.53e-06%float <> 0%float.
Proof.
  intro H.
  pose proof (f_equal (fun v => PrimFloat.eqb v 0%float) H) as E.
  vm_compute in E. discriminate E.
Qed.

Lemma covariance_loop_default :
  linear_acceleration_covariance (covariance_loop Imu_default)
    = first_column3 67.53e-06 /\
  angular_velocity_covariance (covariance_loop Imu_default)
    = first_column3 3.05e-06 /\
  orientation_covariance (covariance_loop Imu_default)
    = first_column3 15.9e-03.
Proof. repeat split; vm_compute; reflexivity. Qed.

Lemma first_column_is_not_diagonal :
  first_column3 67.53e-06 <> diagonal3 67.53e-06.
Proof.
  intro E.
  exact (accel_constant_nonzero (f_equal (fun l => nth 3 l 0%float) E)).
Qed.

Section Construction.
Context {W : Type} `{Platform W}.

Lemma MinimalPublisher_new_inv devDirectory devAddress (w w1 : W) p tr :
  MinimalPublisher_new devDirectory devAddress w = (Returned p, w1, tr) ->
  imuMsg_ p = covariance_loop Imu_default /\
  frameId_ p = default "imu_link" (parameter_overrides w1 !! "frame_id") /\
  declared tr = [("frame_id", "imu_link")] /\
  opens tr = [true].
Proof.
  unfold MinimalPublisher_new, imu_open, declare_parameter, emit,
    mbind, M_bind, mret, M_ret.
  destruct (BNO055_open devDirectory devAddress w) as [[e|[]] wo]; cbn; [done|].
  by intros [= <- <- <-].
Qed.

(** C1 (the code departs from the claim): the loop of the constructor tests
    [i % 3 == 0], which holds at indices 0, 3 and 6.  In every node that is
    constructed, each covariance holds its constant in the first column, not
    on the diagonal: index 3 holds the constant and index 4 holds zero. *)
Theorem constructor_fills_first_column devDirectory devAddress (w w1 : W) p tr :
  MinimalPublisher_new devDirectory devAddress w = (Returned p, w1, tr) ->
  linear_acceleration_covariance (imuMsg_ p) = first_column3 67.53e-06 /\
  angular_velocity_covariance (imuMsg_ p) = first_column3 3.05e-06 /\
  orientation_covariance (imuMsg_ p) = first_column3 15.9e-03 /\
  linear_acceleration_covariance (imuMsg_ p) !! 3%nat = Some 67.53e-06%float /\
  linear_acceleration_covariance (imuMsg_ p) !! 4%nat = Some 0%float /\
  linear_acceleration_covariance (imuMsg_ p) <> diagonal3 67.53e-06.
Proof.
  intros E. destruct (MinimalPublisher_new_inv _ _ _ _ _ _ E) as (-> & _).
  destruct covariance_loop_default as (-> & -> & ->).
  repeat split. apply first_column_is_not_diagonal.
Qed.

End Construction.

Lemma constructor_fills_first_column_witness :
  exists p w1 tr,
    MinimalPublisher_new "/dev/i2c-1" 40 (Bench.healthy 100)
      = (Returned p, w1, tr) /\
    linear_acceleration_covariance (imuMsg_ p) = first_column3 67.53e-06 /\
    angular_velocity_covariance (imuMsg_ p) = first_column3 3.05e-06 /\
    orientation_covariance (imuMsg_ p) = first_column3 15.9e-03 /\
    linear_acceleration_covariance (imuMsg_ p) !! 3%nat = Some 67.53e-06%float /\
    linear_acceleration_covariance (imuMsg_ p) !! 4%nat = Some 0%float /\
    linear_acceleration_covariance (imuMsg_ p) <> diagonal3 67.53e-06.
Proof.
  eexists _, _, _.
  split; [vm_compute; reflexivity|].
  eapply (constructor_fills_first_column "/dev/i2c-1" 40 (Bench.healthy 100)).
  vm_compute. reflexivity.
Defined.

(** ** One tick *)

Section Tick.
Context {W : Type} `{Platform W}.

Ltac unfold_tick :=
  unfold timer_callback, reads, try_catch, publish, on_world, call, get_local,
    modify_local, now, RCLCPP_ERROR, emit, imu_reconnect,
    this_thread_sleep_for, mbind, M_bind, mret, M_ret, of_result in *.

Lemma timer_callback_reads_ok p w a g q w' :
  reads w = (Returned (a, g, q), w') ->
  timer_callback (p, w)
  = (Returned tt, (sampled (clock_now w) a g q p, w'),
     [EvPublish (imuMsg_ (sampled (clock_now w) a g q p))]).
Proof.
  unfold_tick. intros E.
  destruct (getAccelMsq w) as [[e1|a1] w1]; [discriminate|].
  destruct (getGyroRps w1) as [[e2|g1] w2]; [discriminate|].
  destruct (getQuaternion w2) as [[e3|q1] w3]; [discriminate|].
  cbn in *. inversion E; subst.
  destruct a, g, q. reflexivity.
Qed.

Lemma timer_callback_reads_throw p w w1 :
  reads w = (Thrown runtime_error, w1) ->
  timer_callback (p, w)
  = (Returned tt,
     (stamped (clock_now w) p,
      if (reconnect w1).1 then (reconnect w1).2
      else sleep_for 1000 (reconnect w1).2),
     [EvLogError "Sensor connection is lost! Trying to reconnect...";
      EvReconnect (reconnect w1).1]
     ++ (if (reconnect w1).1 then [] else [EvSleep 1000])).
Proof.
  unfold_tick. intros E.
  destruct (getAccelMsq w) as [[e1|a1] wa]; cbn in *.
  { inversion E; subst. cbn. destruct (reconnect w1) as [[] w2]; reflexivity. }
  destruct (getGyroRps wa) as [[e2|g1] wg]; cbn in *.
  { inversion E; subst. cbn. destruct (reconnect w1) as [[] w2]; reflexivity. }
  destruct (getQuaternion wg) as [[e3|q1] wq]; cbn in *.
  { inversion E; subst. cbn. destruct (reconnect w1) as [[] w2]; reflexivity. }
  discriminate.
Qed.

Lemma timer_callback_reads_escape p w e w1 :
  reads w = (Thrown e, w1) -> e <> runtime_error ->
  timer_callback (p, w) = (Thrown e, (stamped (clock_now w) p, w1), []).
Proof.
  unfold_tick. intros E Ne.
  destruct (getAccelMsq w) as [[e1|a1] wa]; cbn in *.
  { inversion E; subst. cbn. destruct (decide _); [contradiction|reflexivity]. }
  destruct (getGyroRps wa) as [[e2|g1] wg]; cbn in *.
  { inversion E; subst. cbn. destruct (decide _); [contradiction|reflexivity]. }
  destruct (getQuaternion wg) as [[e3|q1] wq]; cbn in *.
  { inversion E; subst. cbn. destruct (decide _); [contradiction|reflexivity]. }
  discriminate.
Qed.

Lemma reads_not_out_of_fuel w : (reads w).1 <> OutOfFuel.
Proof.
  unfold_tick.
  destruct (getAccelMsq w) as [[e1|a1] wa]; cbn; [discriminate|].
  destruct (getGyroRps wa) as [[e2|g1] wg]; cbn; [discriminate|].
  destruct (getQuaternion wg) as [[e3|q1] wq]; cbn; discriminate.
Qed.

Lemma timer_callback_cases p w : tick_spec p w (timer_callback (p, w)).
Proof.
  destruct (reads w) as [[[[a g] q]|e|] w1] eqn:E.
  - rewrite (timer_callback_reads_ok p w a g q w1 E). by constructor.
  - destruct (decide (e = runtime_error)) as [->|Ne].
    + rewrite (timer_callback_reads_throw p w w1 E).
      eapply tick_recovering; [exact E| |]; by destruct (reconnect w1).1.
    + rewrite (timer_callback_reads_escape p w e w1 E Ne). by constructor.
  - exfalso. apply (reads_not_out_of_fuel w). by rewrite E.
Qed.

End Tick.

(** ** Runs of ticks *)

Section Runs.
Context {W : Type} `{Platform W}.

Lemma ticks_lookup n : forall s0 k s tr,
  ticks n s0 !! k = Some (s, tr) ->
  frameId_ s.1 = frameId_ s0.1 /\ tr = (timer_callback s).2.
Proof.
  induction n as [|n IH]; intros s0 k s tr; cbn; [done|].
  destruct s0 as [p0 w0]; cbn.
  pose proof (timer_callback_cases p0 (sleep_for 10 w0)) as C.
  destruct (timer_callback (p0, sleep_for 10 w0)) as [[r s'] tr'] eqn:E.
  destruct k as [|k]; cbn.
  - intros [= <- <-]. by rewrite E.
  - destruct r as [[]| |]; cbn; [|done..].
    intros L. apply IH in L as [L1 L2]. split; [|done].
    rewrite L1. inversion C; subst; reflexivity.
Qed.

Lemma ticks_next n : forall s0 k s tr,
  ticks n s0 !! k = Some (s, tr) ->
  (timer_callback s).1.1 = Returned tt ->
  (S k < n)%nat ->
  is_Some (ticks n s0 !! S k).
Proof.
  induction n as [|n IH]; intros s0 k s tr; cbn; [done|].
  destruct (timer_callback (s0.1, sleep_for 10 s0.2)) as [[r s'] tr'] eqn:E.
  destruct k as [|k]; cbn.
  - intros [= <- <-]. rewrite E. cbn. intros -> Lt.
    destruct n as [|n]; [lia|]. cbn.
    destruct (timer_callback (s'.1, sleep_for 10 s'.2)) as [[r2 s2] tr2].
    by eexists.
  - destruct r as [[]| |]; cbn; [|done..].
    intros L R Lt. apply (IH s' k s tr L R). lia.
Qed.

Lemma ticks_next_state n : forall s0 k s s' tr,
  ticks n s0 !! k = Some (s, tr) ->
  timer_callback s = (Returned tt, s', tr) ->
  (S k < n)%nat ->
  exists tr', ticks n s0 !! S k = Some ((s'.1, sleep_for 10 s'.2), tr').
Proof.
  induction n as [|n IH]; intros s0 k s s' tr; cbn; [done|].
  destruct (timer_callback (s0.1, sleep_for 10 s0.2)) as [[r s1] tr1] eqn:E.
  destruct k as [|k]; cbn.
  - intros [= <- <-]. rewrite E. intros [= -> ->] Lt.
    destruct n as [|n]; [lia|]. cbn.
    destruct (timer_callback (s'.1, sleep_for 10 s'.2)) as [[r2 s2] tr2].
    by eexists.
  - destruct r as [[]| |]; cbn; [|done..].
    intros L R Lt. apply (IH s1 k s s' tr L R). lia.
Qed.

Lemma published_app tr1 tr2 :
  published (tr1 ++ tr2) = published tr1 ++ published tr2.
Proof. apply omap_app. Qed.

Lemma declared_app tr1 tr2 :
  declared (tr1 ++ tr2) = declared tr1 ++ declared tr2.
Proof. apply omap_app. Qed.

Lemma published_trace_of (h : list ((MinimalPublisher * W) * list Event)) m :
  m ∈ published (trace_of h) ->
  exists k s tr, h !! k = Some (s, tr) /\ m ∈ published tr.
Proof.
  induction h as [|[s tr] h IH]; cbn.
  - by intros ?%elem_of_nil.
  - unfold trace_of; cbn. rewrite published_app, elem_of_app.
    intros [Hm|Hm].
    + by exists 0%nat, s, tr.
    + destruct (IH Hm) as (k & s1 & tr1 & L & Hin).
      by exists (S k), s1, tr1.
Qed.

Lemma declared_trace_of (h : list ((MinimalPublisher * W) * list Event)) :
  (forall k s tr, h !! k = Some (s, tr) -> declared tr = []) ->
  declared (trace_of h) = [].
Proof.
  induction h as [|[s tr] h IH]; intros A; [done|].
  unfold trace_of; cbn. rewrite declared_app.
  rewrite (A 0%nat s tr eq_refl). cbn.
  apply IH. intros k s1 tr1 L. exact (A (S k) s1 tr1 L).
Qed.

Lemma tick_facts p w :
  declared (timer_callback (p, w)).2 = [] /\
  forall m, m ∈ published (timer_callback (p, w)).2 ->
            frame_id (header m) = frameId_ p.
Proof.
  pose proof (timer_callback_cases p w) as C.
  destruct (timer_callback (p, w)) as [[r s'] tr].
  inversion C as [a g q w' Er|w1 w2 tr1 Er Hp Hd|e w1 Er Ne]; subst; cbn.
  - split; [done|]. by intros m ->%list_elem_of_singleton.
  - split; [done|]. fold (published tr). rewrite Hp. by intros m ?%elem_of_nil.
  - split; [done|]. by intros m ?%elem_of_nil.
Qed.

Lemma sampled_covariances t a g q p :
  linear_acceleration_covariance (imuMsg_ (sampled t a g q p))
    = linear_acceleration_covariance (imuMsg_ p) /\
  angular_velocity_covariance (imuMsg_ (sampled t a g q p))
    = angular_velocity_covariance (imuMsg_ p) /\
  orientation_covariance (imuMsg_ (sampled t a g q p))
    = orientation_covariance (imuMsg_ p).
Proof. done. Qed.

(** The callback never writes a covariance: at the entry of every tick of a
    run the three matrices are those the run started with. *)
Lemma ticks_keep_covariances n : forall s0 k s tr,
  ticks n s0 !! k = Some (s, tr) ->
  linear_acceleration_covariance (imuMsg_ s.1)
    = linear_acceleration_covariance (imuMsg_ s0.1) /\
  angular_velocity_covariance (imuMsg_ s.1)
    = angular_velocity_covariance (imuMsg_ s0.1) /\
  orientation_covariance (imuMsg_ s.1)
    = orientation_covariance (imuMsg_ s0.1).
Proof.
  induction n as [|n IH]; intros s0 k s tr; cbn; [done|].
  destruct s0 as [p0 w0]; cbn.
  pose proof (timer_callback_cases p0 (sleep_for 10 w0)) as C.
  destruct (timer_callback (p0, sleep_for 10 w0)) as [[r s'] tr'] eqn:E.
  destruct k as [|k]; cbn.
  - by intros [= <- <-].
  - destruct r as [[]| |]; cbn; [|done..].
    intros L. apply IH in L as (L1 & L2 & L3).
    rewrite L1, L2, L3. inversion C; subst; done.
Qed.

(** What [spin] emits is what the ticks of a run emit, each after the
    expiry of the timer. *)
Lemma spin_is_ticks fuel : forall s,
  exists n, (spin fuel s).2
            = concat (map (fun x => EvTick :: x.2) (ticks n s)).
Proof.
  induction fuel as [|fuel IH]; intros [p w]; [by exists 0%nat|].
  cbn. unfold mbind, M_bind, on_world, ok, wait_for_timer. cbn.
  destruct (rclcpp_ok w); [|by exists 0%nat].
  destruct (timer_callback (p, sleep_for 10 w)) as [[r s'] tr] eqn:E.
  destruct r as [[]|e|].
  - destruct (IH s') as [n En]. exists (S n). cbn. rewrite E. cbn.
    destruct (spin fuel s') as [[r2 s2] tr2]. cbn in *. by rewrite En.
  - exists 1%nat. cbn. rewrite E. cbn. by rewrite app_nil_r.
  - exists 1%nat. cbn. rewrite E. cbn. by rewrite app_nil_r.
Qed.

End Runs.

(** ** The sampling cycle *)

Section SampleCycle.
Context {W : Type} `{Platform W}.

(** C4: in any run, a tick entered with a read that raises the
    recoverable-connection error (the reads leave the world [w1]) publishes
    nothing and calls the driver's [reconnect] exactly once, on [w1]; it
    sleeps the one-second cooldown exactly when that call answered false and
    returns at once when it answered true.  The callback returns normally in
    both cases, so that, however many failing ticks came before, the next
    tick of the run is entered, in the world this one left; the node keeps
    no count of the attempts. *)
Theorem failing_tick_reconnects_once n s0 k p w w1 tr :
  ticks n s0 !! k = Some ((p, w), tr) ->
  reads w = (Thrown runtime_error, w1) ->
  let restored := (reconnect w1).1 in
  let w2 := if restored then (reconnect w1).2
            else sleep_for 1000 (reconnect w1).2 in
  timer_callback (p, w)
    = (Returned tt, (stamped (clock_now w) p, w2), tr) /\
  tr = [EvLogError "Sensor connection is lost! Trying to reconnect...";
        EvReconnect restored]
       ++ (if restored then [] else [EvSleep 1000]) /\
  published tr = [] /\
  reconnects tr = [restored] /\
  sleeps tr = (if restored then [] else [1000]) /\
  ((S k < n)%nat ->
   exists tr',
     ticks n s0 !! S k
     = Some ((stamped (clock_now w) p, sleep_for 10 w2), tr')).
Proof.
  intros L E. cbv zeta.
  pose proof (timer_callback_reads_throw p w w1 E) as T.
  destruct (ticks_lookup n s0 k (p, w) tr L) as [_ Etr].
  rewrite T in Etr. cbn [snd] in Etr.
  assert (T' : timer_callback (p, w)
               = (Returned tt,
                  (stamped (clock_now w) p,
                   if (reconnect w1).1 then (reconnect w1).2
                   else sleep_for 1000 (reconnect w1).2), tr))
    by (rewrite T; f_equal; exact (eq_sym Etr)).
  split; [exact T'|]. split; [exact Etr|].
  split; [rewrite Etr; by destruct (reconnect w1).1|].
  split; [rewrite Etr; by destruct (reconnect w1).1|].
  split; [rewrite Etr; by destruct (reconnect w1).1|].
  intros Lt.
  exact (ticks_next_state n s0 k _ _ tr L T' Lt).
Qed.

(** C5: a tick on which the three reads succeed publishes exactly one
    message; its acceleration, angular velocity and orientation are the
    values the three reads returned, its frame id is the node's resolved
    [frameId_], and its stamp is the clock's time at that tick. *)
Theorem successful_tick_publishes_sample p w a g q w' :
  reads w = (Returned (a, g, q), w') ->
  exists m p',
    timer_callback (p, w) = (Returned tt, (p', w'), [EvPublish m]) /\
    linear_acceleration m = a /\
    angular_velocity m = g /\
    orientation m = q /\
    frame_id (header m) = frameId_ p /\
    stamp (header m) = clock_now w.
Proof.
  intros E. eexists _, _. split.
  - exact (timer_callback_reads_ok p w a g q w' E).
  - by cbn.
Qed.

(** C6: in any run, every published message is the buffer of one tick on
    which all three reads succeeded, and its three measurements are the
    values of those three reads; that tick publishes nothing else. *)
Theorem published_message_is_one_whole_sample n s0 m :
  m ∈ published (trace_of (ticks n s0)) ->
  exists k p w tr a g q w',
    ticks n s0 !! k = Some ((p, w), tr) /\
    reads w = (Returned (a, g, q), w') /\
    tr = [EvPublish m] /\
    linear_acceleration m = a /\
    angular_velocity m = g /\
    orientation m = q.
Proof.
  intros Hm.
  destruct (published_trace_of _ _ Hm) as (k & [p w] & tr & L & Hin).
  destruct (ticks_lookup n s0 k (p, w) tr L) as [_ Etr].
  pose proof (timer_callback_cases p w) as C.
  destruct (timer_callback (p, w)) as [[r s'] tr'] eqn:E. cbn in Etr. subst tr'.
  inversion C as [a g q w' Er|w1 w2 tr1 Er Hp Hd|e w1 Er Ne]; subst.
  - cbn in Hin. apply list_elem_of_singleton in Hin. subst m.
    by eexists k, p, w, _, a, g, q, w'.
  - rewrite Hp in Hin. by apply elem_of_nil in Hin.
  - by apply elem_of_nil in Hin.
Qed.

(** C8: the constructor asks the parameter provider once, for [frame_id]
    with default [imu_link]; the answer (the override if there is one, else
    the default) is stored in [frameId_]; no tick asks again, and every
    message published in any run of the node carries that value. *)
Theorem frame_id_resolved_once dir addr w p w1 tr0 :
  MinimalPublisher_new dir addr w = (Returned p, w1, tr0) ->
  declared tr0 = [("frame_id", "imu_link")] /\
  frameId_ p = default "imu_link" (parameter_overrides w1 !! "frame_id") /\
  forall n w2,
    declared (trace_of (ticks n (p, w2))) = [] /\
    forall m, m ∈ published (trace_of (ticks n (p, w2))) ->
              frame_id (header m) = frameId_ p.
Proof.
  unfold MinimalPublisher_new, imu_open, declare_parameter, emit,
    mbind, M_bind, mret, M_ret.
  destruct (BNO055_open dir addr w) as [[e|[]] wo]; cbn; [done|].
  intros [= <- <- <-]. cbn. split; [done|]. split; [done|].
  intros n w2. split.
  - apply declared_trace_of. intros k [p1 w3] tr L.
    destruct (ticks_lookup n _ k _ tr L) as [_ ->]. apply tick_facts.
  - intros m Hm.
    destruct (published_trace_of _ _ Hm) as (k & [p1 w3] & tr & L & Hin).
    destruct (ticks_lookup n _ k _ tr L) as [F ->]. cbn in F. rewrite <- F.
    by apply (tick_facts p1 w3).
Qed.

(** C9: a tick entered with a read that raises the recoverable-connection
    error leaves the buffer's header stamped with this tick's time and the
    node's frame id, leaves its measurements and covariances as they were,
    and publishes nothing. *)
Theorem failing_tick_overwrites_only_header p w :
  (reads w).1 = Thrown runtime_error ->
  exists r p' w' tr,
    timer_callback (p, w) = (r, (p', w'), tr) /\
    header (imuMsg_ p') = {| stamp := clock_now w; frame_id := frameId_ p |} /\
    linear_acceleration (imuMsg_ p') = linear_acceleration (imuMsg_ p) /\
    angular_velocity (imuMsg_ p') = angular_velocity (imuMsg_ p) /\
    orientation (imuMsg_ p') = orientation (imuMsg_ p) /\
    linear_acceleration_covariance (imuMsg_ p')
      = linear_acceleration_covariance (imuMsg_ p) /\
    angular_velocity_covariance (imuMsg_ p')
      = angular_velocity_covariance (imuMsg_ p) /\
    orientation_covariance (imuMsg_ p') = orientation_covariance (imuMsg_ p) /\
    published tr = [].
Proof.
  intros R.
  destruct (reads w) as [r w1] eqn:E; cbn in R; subst r.
  rewrite (timer_callback_reads_throw p w w1 E).
  eexists _, _, _, _. split; [reflexivity|].
  cbn. repeat split; by destruct (reconnect w1).1.
Qed.

End SampleCycle.

(** ** The sampling cycle on the bench *)

Lemma failing_tick_reconnects_once_witness :
  let s0 := (Bench.a_node, Bench.unplugged [false; true]) in
  exists p w w1 tr,
    (ticks 3 s0 !! 1%nat = Some ((p, w), tr) /\
     reads w = (Thrown runtime_error, w1)) /\
    (reconnect w1).1 = true /\
    let restored := (reconnect w1).1 in
    let w2 := if restored then (reconnect w1).2
              else sleep_for 1000 (reconnect w1).2 in
    timer_callback (p, w)
      = (Returned tt, (stamped (clock_now w) p, w2), tr) /\
    tr = [EvLogError "Sensor connection is lost! Trying to reconnect...";
          EvReconnect restored]
         ++ (if restored then [] else [EvSleep 1000]) /\
    published tr = [] /\
    reconnects tr = [restored] /\
    sleeps tr = (if restored then [] else [1000]) /\
    ((2 < 3)%nat ->
     exists tr',
       ticks 3 s0 !! 2%nat
       = Some ((stamped (clock_now w) p, sleep_for 10 w2), tr')).
Proof.
  cbv zeta. eexists _, _, _, _.
  split; [split; vm_compute; reflexivity|].
  split; [reflexivity|].
  apply (failing_tick_reconnects_once 3
           (Bench.a_node, Bench.unplugged [false; true]) 1);
    vm_compute; reflexivity.
Defined.

Lemma successful_tick_publishes_sample_witness :
  reads (Bench.healthy 100)
    = (Returned (Bench.accel_sample, Bench.gyro_sample, Bench.quat_sample),
       Bench.healthy 100) /\
  exists m p',
    timer_callback (Bench.a_node, Bench.healthy 100)
      = (Returned tt, (p', Bench.healthy 100), [EvPublish m]) /\
    linear_acceleration m = Bench.accel_sample /\
    angular_velocity m = Bench.gyro_sample /\
    orientation m = Bench.quat_sample /\
    frame_id (header m) = frameId_ Bench.a_node /\
    stamp (header m) = clock_now (Bench.healthy 100).
Proof.
  refine ((fun E => conj E (successful_tick_publishes_sample _ _ _ _ _ _ E)) _).
  vm_compute. reflexivity.
Defined.

Lemma published_message_is_one_whole_sample_witness :
  exists m,
    m ∈ published (trace_of (ticks 2 (Bench.a_node, Bench.healthy 100))) /\
    exists k p w tr a g q w',
      ticks 2 (Bench.a_node, Bench.healthy 100) !! k = Some ((p, w), tr) /\
      reads w = (Returned (a, g, q), w') /\
      tr = [EvPublish m] /\
      linear_acceleration m = a /\
      angular_velocity m = g /\
      orientation m = q.
Proof.
  eexists.
  refine ((fun Hm =>
    conj Hm (published_message_is_one_whole_sample 2 _ _ Hm)) _).
  vm_compute. apply list_elem_of_here.
Defined.

Lemma frame_id_resolved_once_witness :
  exists p w1 tr0,
    MinimalPublisher_new "/dev/i2c-1" 40 Bench.configured
      = (Returned p, w1, tr0) /\
    frameId_ p = "imu_top" /\
    declared tr0 = [("frame_id", "imu_link")] /\
    frameId_ p = default "imu_link" (parameter_overrides w1 !! "frame_id") /\
    forall n w2,
      declared (trace_of (ticks n (p, w2))) = [] /\
      forall m, m ∈ published (trace_of (ticks n (p, w2))) ->
                frame_id (header m) = frameId_ p.
Proof.
  eexists _, _, _.
  split; [vm_compute; reflexivity|].
  split; [reflexivity|].
  apply (frame_id_resolved_once "/dev/i2c-1" 40 Bench.configured).
  vm_compute. reflexivity.
Defined.

Lemma failing_tick_overwrites_only_header_witness :
  (reads (Bench.unplugged [false])).1 = Thrown runtime_error /\
  exists r p' w' tr,
    timer_callback (Bench.a_node, Bench.unplugged [false]) = (r, (p', w'), tr) /\
    header (imuMsg_ p')
      = {| stamp := clock_now (Bench.unplugged [false]);
           frame_id := frameId_ Bench.a_node |} /\
    linear_acceleration (imuMsg_ p') = linear_acceleration (imuMsg_ Bench.a_node) /\
    angular_velocity (imuMsg_ p') = angular_velocity (imuMsg_ Bench.a_node) /\
    orientation (imuMsg_ p') = orientation (imuMsg_ Bench.a_node) /\
    linear_acceleration_covariance (imuMsg_ p')
      = linear_acceleration_covariance (imuMsg_ Bench.a_node) /\
    angular_velocity_covariance (imuMsg_ p')
      = angular_velocity_covariance (imuMsg_ Bench.a_node) /\
    orientation_covariance (imuMsg_ p')
      = orientation_covariance (imuMsg_ Bench.a_node) /\
    published tr = [].
Proof.
  refine ((fun R => conj R (failing_tick_overwrites_only_header _ _ R)) _).
  vm_compute. reflexivity.
Defined.

(** ** Start-up arguments *)

Section Arguments.
Context {W : Type} `{Platform W}.

Ltac unfold_parse :=
  unfold parse_address, try_catch, RCLCPP_ERROR, emit,
    mbind, M_bind, mret, M_ret, of_result.


Lemma parse_address_too_large arg v (s : option MinimalPublisher * W) :
  stoul16 arg = inr v -> 255 < v ->
  parse_address arg s
  = (Returned (inl (-1)), s, [EvLogError "Device I2C adress is not valid!"]).
Proof.
  unfold_parse. intros -> Hv.
  destruct (Z.gtb_spec v 255) as [_|?]; [reflexivity|lia].
Qed.

Lemma parse_address_out_of_range arg (s : option MinimalPublisher * W) :
  stoul16 arg = inl out_of_range ->
  parse_address arg s = (Thrown out_of_range, s, []).
Proof. unfold_parse. by intros ->. Qed.


End Arguments.


(** [stoul] finds no number exactly when no hexadecimal digit comes after
    the white space, the sign and the prefix. *)
Lemma stoul16_invalid_iff arg :
  stoul16 arg = inl invalid_argument
  <-> hex_digits (skip_0x (split_sign (skip_spaces arg)).2) = [].
Proof.
  unfold stoul16. destruct (split_sign (skip_spaces arg)) as [negative s].
  cbn [snd]. destruct (hex_digits (skip_0x s)) as [|d ds]; [done|].
  split; [|done]. by destruct (_ >? _).
Qed.


(** C10: the handler around the parse names [std::invalid_argument] only.
    The seventeen-digit string [10000000000000000] is made of hexadecimal
    digits and its value, 2^64, is above [ULONG_MAX]: [stoul] throws
    [std::out_of_range], which leaves [main] uncaught on every platform,
    with nothing reported and no status returned. *)
Theorem out_of_range_address_escapes_handler :
  exists arg : string,
    Forall (fun c => is_Some (hex_digit c)) (list_ascii_of_string arg) /\
    ULONG_MAX < hex_value (hex_digits arg) /\
    stoul16 arg = inl out_of_range /\
    forall (W : Type) (P : Platform W) fuel prog devDirectory
           (s : option MinimalPublisher * W),
      main fuel [prog; devDirectory; arg] s = (Thrown out_of_range, s, []) /\
      logged (main fuel [prog; devDirectory; arg] s).2 = [].
Proof.
  exists "10000000000000000".
  split; [|split; [|split]].
  - cbn. repeat constructor; by eexists.
  - by vm_compute.
  - reflexivity.
  - intros W P fuel prog devDirectory s.
    assert (E : main fuel [prog; devDirectory; "10000000000000000"] s
                = (Thrown out_of_range, s, [])).
    { unfold main. cbn [length]. destruct (decide _) as [Hn|_]; [done|].
      change ([prog; devDirectory; "10000000000000000"] !!! 2%nat)
        with "10000000000000000".
      unfold mbind, M_bind.
      by rewrite (parse_address_out_of_range "10000000000000000" s eq_refl). }
    by rewrite E.
Qed.

(** ** The connection loop *)

Section ConnectLoop.
Context {W : Type} `{Platform W}.

(** On any platform, an iteration that starts with [rclcpp::ok()] true and
    a node already held constructs another node when the device opens, and
    destroys the one it held only afterwards. *)
Lemma connect_loop_iteration_reconstructs fuel devDirectory devAddress old
    (w w1 : W) :
  rclcpp_ok w = true ->
  BNO055_open devDirectory devAddress w = (inr tt, w1) ->
  exists p,
    connect_loop (S fuel) devDirectory devAddress (Some old, w)
    = let '(r, s, tr) :=
        connect_loop fuel devDirectory devAddress (Some p, sleep_for 1000 w1) in
      (r, s,
       [EvOpen devDirectory devAddress true;
        EvDeclareParameter "frame_id" "imu_link";
        EvCreatePublisher "imu"; EvCreateTimer 10;
        EvNodeConstructed; EvNodeDestroyed; EvSleep 1000] ++ tr).
Proof.
  intros Hok Hopen.
  exists {| imuMsg_ := covariance_loop Imu_default;
            frameId_ := default "imu_link"
                          (parameter_overrides w1 !! "frame_id") |}.
  cbn [connect_loop].
  unfold mbind, M_bind, on_world, ok, try_catch, make_shared_MinimalPublisher,
    MinimalPublisher_new, imu_open, declare_parameter, assign_node, get_local,
    modify_local, this_thread_sleep_for, emit, mret, M_ret, mbind, M_bind.
  rewrite Hok, Hopen. cbn.
  destruct (connect_loop fuel _ _ _) as [[r s] tr]. reflexivity.
Qed.

End ConnectLoop.

(** ** The connection loop on the bench *)

(** C2 (the code departs from the claim): with the device present and
    [rclcpp::ok()] true for three iterations, the loop does not stop at the
    first successful construction.  It opens the sensor and constructs a node
    in each of the three iterations, and leaves the loop only once
    [rclcpp::ok()] is false, so the event loop delivers no tick and nothing
    is published. *)
Theorem connect_loop_constructs_after_success :
  let run := main 5 ["bno055_publisher"; "/dev/i2c-1"; "28"]
                  (None, Bench.healthy 2500) in
  run.1.1 = Returned 0 /\
  opens run.2 = [true; true; true] /\
  constructions run.2 = 3%nat /\
  timer_ticks run.2 = 0%nat /\
  published run.2 = [].
Proof. cbv zeta. repeat split; vm_compute; reflexivity. Qed.

(** C3 (the code departs from the claim): in the same run, when the second
    iteration has constructed its node and the assignment has not yet
    released the first, two nodes are alive. *)
Theorem two_nodes_alive_before_assignment :
  let run := main 5 ["bno055_publisher"; "/dev/i2c-1"; "28"]
                  (None, Bench.healthy 2500) in
  exists before after,
    run.2 = before ++ after /\
    last before = Some EvNodeConstructed /\
    head after = Some EvNodeDestroyed /\
    live before = 2.
Proof.
  cbv zeta.
  exists (take 11 (main 5 ["bno055_publisher"; "/dev/i2c-1"; "28"]
                        (None, Bench.healthy 2500)).2),
         (drop 11 (main 5 ["bno055_publisher"; "/dev/i2c-1"; "28"]
                        (None, Bench.healthy 2500)).2).
  split; [by rewrite take_drop|].
  repeat split; vm_compute; reflexivity.
Qed.

(** ** More on the bench and on the parser *)

Lemma trace_of_cons {S} (s : S) tr (h : list (S * list Event)) :
  trace_of ((s, tr) :: h) = tr ++ trace_of h.
Proof. reflexivity. Qed.

Lemma reconnects_app tr1 tr2 :
  reconnects (tr1 ++ tr2) = reconnects tr1 ++ reconnects tr2.
Proof. apply omap_app. Qed.

(** However long the link stays down, every tick calls [reconnect]: a run of
    [n] ticks against a device that refuses [n] reconnects makes [n] calls
    and publishes nothing. *)
Lemma unplugged_retries_every_tick n : forall p (b : Bench.bench),
  Bench.link_up b = false ->
  Bench.reconnect_plan b = replicate n false ->
  reconnects (trace_of (ticks n (p, b))) = replicate n false /\
  published (trace_of (ticks n (p, b))) = [].
Proof.
  induction n as [|n IH]; intros p b Hl Hp; [done|].
  cbn [ticks fst snd].
  set (b1 := sleep_for 10 b).
  assert (E : reads b1 = (Thrown runtime_error, b1)).
  { unfold reads, call, mbind, M_bind. cbn. unfold Bench.read. cbn.
    by rewrite Hl. }
  assert (R : (reconnect b1).1 = false) by (cbn; by rewrite Hp).
  rewrite (timer_callback_reads_throw p _ _ E), R.
  cbv beta iota.
  rewrite trace_of_cons, reconnects_app, published_app.
  destruct (IH (stamped (clock_now b1) p) (sleep_for 1000 (reconnect b1).2))
    as [-> ->]; [done|cbn; by rewrite Hp|done].
Qed.

(** [stoul] converts the longest hexadecimal prefix and ignores the rest. *)
Example stoul16_takes_hex_prefix : stoul16 "1z" = inr 1.
Proof. reflexivity. Qed.

Example stoul16_accepts_0x : stoul16 " 0x28" = inr 40.
Proof. reflexivity. Qed.

Example stoul16_negates_in_unsigned_long : stoul16 "-1" = inr ULONG_MAX.
Proof. reflexivity. Qed.

Example stoul16_no_digit : stoul16 "" = inl invalid_argument.
Proof. reflexivity. Qed.

(** A device that is absent twice and then present: two reported failures,
    then a node. *)
Example connect_loop_retries_after_failure :
  let run := main 5 ["bno055_publisher"; "/dev/i2c-1"; "28"]
                  (None,
                   {| Bench.link_up := false;
                      Bench.open_plan := [false; false; true];
                      Bench.reconnect_plan := [];
                      Bench.clock := 0; Bench.shutdown_at := 2500;
                      Bench.overrides := ∅ |}) in
  opens run.2 = [false; false; true] /\
  logged run.2
    = ["Cannot connect to I2C device!"; "Cannot connect to I2C device!"] /\
  sleeps run.2 = [1000; 1000; 1000] /\
  constructions run.2 = 1%nat.
Proof. cbv zeta. repeat split; vm_compute; reflexivity. Qed.

(** ** Beyond the claims: the buffer *)

(** X1: whatever a message held, the covariance loop leaves each of its three
    nine-entry arrays with the constant in the first column and zero
    elsewhere, and leaves the header and the three measurements as they
    were. *)
Theorem covariance_loop_overwrites (m : Imu) :
  length (linear_acceleration_covariance m) = 9%nat ->
  length (angular_velocity_covariance m) = 9%nat ->
  length (orientation_covariance m) = 9%nat ->
  covariance_loop m
  = {| header := header m;
       orientation := orientation m;
       orientation_covariance := first_column3 15.9e-03;
       angular_velocity := angular_velocity m;
       angular_velocity_covariance := first_column3 3.05e-06;
       linear_acceleration := linear_acceleration m;
       linear_acceleration_covariance := first_column3 67.53e-06 |}.
Proof.
  destruct m as [h o oc av avc la lac]. cbn [linear_acceleration_covariance
    angular_velocity_covariance orientation_covariance header orientation
    angular_velocity linear_acceleration].
  intros Hl Ha Ho.
  do 9 (destruct lac as [|? lac]; [discriminate Hl|]).
  destruct lac; [clear Hl|discriminate Hl].
  do 9 (destruct avc as [|? avc]; [discriminate Ha|]).
  destruct avc; [clear Ha|discriminate Ha].
  do 9 (destruct oc as [|? oc]; [discriminate Ho|]).
  destruct oc; [clear Ho|discriminate Ho].
  reflexivity.
Qed.

Lemma covariance_loop_overwrites_witness :
  covariance_loop (covariance_loop Imu_default)
  = {| header := header (covariance_loop Imu_default);
       orientation := orientation (covariance_loop Imu_default);
       orientation_covariance := first_column3 15.9e-03;
       angular_velocity := angular_velocity (covariance_loop Imu_default);
       angular_velocity_covariance := first_column3 3.05e-06;
       linear_acceleration := linear_acceleration (covariance_loop Imu_default);
       linear_acceleration_covariance := first_column3 67.53e-06 |}.
Proof.
  apply (covariance_loop_overwrites (covariance_loop Imu_default));
    reflexivity.
Defined.

Section BeyondTick.
Context {W : Type} `{Platform W}.

(** X2: every message published in any run of a constructed node carries the
    three covariances the constructor stored, the constant in the first
    column of each: no tick writes them. *)
Theorem published_covariances_are_the_constructed devDirectory devAddress
    (w w1 w2 : W) p tr0 n m :
  MinimalPublisher_new devDirectory devAddress w = (Returned p, w1, tr0) ->
  m ∈ published (trace_of (ticks n (p, w2))) ->
  linear_acceleration_covariance m = first_column3 67.53e-06 /\
  angular_velocity_covariance m = first_column3 3.05e-06 /\
  orientation_covariance m = first_column3 15.9e-03.
Proof.
  intros E Hm.
  destruct (MinimalPublisher_new_inv _ _ _ _ _ _ E) as (Ei & _).
  destruct (published_trace_of _ _ Hm) as (k & [p1 w3] & tr & L & Hin).
  destruct (ticks_keep_covariances n _ k _ tr L) as (K1 & K2 & K3).
  destruct (ticks_lookup n _ k _ tr L) as [_ ->].
  cbn [fst] in K1, K2, K3. rewrite Ei in K1, K2, K3.
  destruct covariance_loop_default as (D1 & D2 & D3).
  rewrite D1 in K1. rewrite D2 in K2. rewrite D3 in K3.
  pose proof (timer_callback_cases p1 w3) as C.
  destruct (timer_callback (p1, w3)) as [[r s'] tr'].
  inversion C as [a g q w' Er|wa wb tr1 Er Hp Hd|e wa Er Ne]; subst; cbn in Hin.
  - apply list_elem_of_singleton in Hin. subst m. by cbn.
  - fold (published tr') in Hin. rewrite Hp in Hin. by apply elem_of_nil in Hin.
  - by apply elem_of_nil in Hin.
Qed.

(** X3: a read that throws anything but [std::runtime_error] is not handled:
    the callback reports nothing, does not call [reconnect], does not sleep
    and publishes nothing, the header is already stamped, and the exception
    ends the event loop at that tick. *)
Theorem other_exception_ends_the_event_loop fuel p (w w1 : W) e :
  rclcpp_ok w = true ->
  reads (sleep_for 10 w) = (Thrown e, w1) ->
  e <> runtime_error ->
  timer_callback (p, sleep_for 10 w)
    = (Thrown e, (stamped (clock_now (sleep_for 10 w)) p, w1), []) /\
  spin (S fuel) (p, w)
    = (Thrown e, (stamped (clock_now (sleep_for 10 w)) p, w1), [EvTick]).
Proof.
  intros Hok E Ne.
  pose proof (timer_callback_reads_escape p _ e w1 E Ne) as T.
  split; [exact T|].
  cbn [spin]. unfold mbind, M_bind, on_world, ok, wait_for_timer.
  rewrite Hok. cbn. by rewrite T.
Qed.

(** X4: on a tick whose reads succeed, what is published and what the
    buffer becomes do not depend on the header or the measurements the
    buffer held before: two nodes that agree on [frameId_] and on the
    covariances behave alike. *)
Theorem successful_tick_forgets_old_sample p1 p2 (w w' : W) a g q :
  reads w = (Returned (a, g, q), w') ->
  frameId_ p1 = frameId_ p2 ->
  linear_acceleration_covariance (imuMsg_ p1)
    = linear_acceleration_covariance (imuMsg_ p2) ->
  angular_velocity_covariance (imuMsg_ p1)
    = angular_velocity_covariance (imuMsg_ p2) ->
  orientation_covariance (imuMsg_ p1) = orientation_covariance (imuMsg_ p2) ->
  timer_callback (p1, w) = timer_callback (p2, w).
Proof.
  intros E F C1 C2 C3.
  rewrite !(timer_callback_reads_ok _ w a g q w' E).
  destruct p1 as [m1 f1], p2 as [m2 f2]. cbn in *. subst f2.
  unfold sampled, set_imuMsg; cbn.
  unfold set_orientation, set_angular_velocity, set_linear_acceleration,
    set_frame_id, set_stamp, set_header; cbn.
  by rewrite C1, C2, C3.
Qed.

End BeyondTick.

Lemma published_covariances_are_the_constructed_witness :
  exists p w1 tr0 m,
    MinimalPublisher_new "/dev/i2c-1" 40 (Bench.healthy 100)
      = (Returned p, w1, tr0) /\
    m ∈ published (trace_of (ticks 2 (p, Bench.healthy 100))) /\
    linear_acceleration_covariance m = first_column3 67.53e-06 /\
    angular_velocity_covariance m = first_column3 3.05e-06 /\
    orientation_covariance m = first_column3 15.9e-03.
Proof.
  eexists _, _, _, _.
  split; [vm_compute; reflexivity|].
  split; [vm_compute; apply list_elem_of_here|].
  eapply (published_covariances_are_the_constructed
            "/dev/i2c-1" 40 (Bench.healthy 100) _ (Bench.healthy 100) _ _ 2).
  - vm_compute. reflexivity.
  - vm_compute. apply list_elem_of_here.
Defined.

Lemma other_exception_ends_the_event_loop_witness :
  let P := Faulty.platform out_of_range in
  rclcpp_ok (Platform := P) 0 = true /\
  reads (H := P) (sleep_for (Platform := P) 10 0) = (Thrown out_of_range, 10) /\
  out_of_range <> runtime_error /\
  timer_callback (H := P) (Bench.a_node, 10)
    = (Thrown out_of_range, (stamped 10 Bench.a_node, 10), []) /\
  spin (H := P) 4 (Bench.a_node, 0)
    = (Thrown out_of_range, (stamped 10 Bench.a_node, 10), [EvTick]).
Proof.
  cbv zeta.
  split; [reflexivity|]. split; [reflexivity|]. split; [discriminate|].
  apply (other_exception_ends_the_event_loop
           (H := Faulty.platform out_of_range) 3 Bench.a_node 0 10 out_of_range);
    [reflexivity|reflexivity|discriminate].
Defined.

(** A buffer that holds an old sample and an old header. *)
Lemma successful_tick_forgets_old_sample_witness :
  let old := sampled 7 Bench.gyro_sample Bench.accel_sample
               (mkQuaternion 1 0 0 0) Bench.a_node in
  timer_callback (Bench.a_node, Bench.healthy 100)
  = timer_callback (old, Bench.healthy 100).
Proof.
  cbv zeta.
  eapply (successful_tick_forgets_old_sample Bench.a_node _ (Bench.healthy 100));
    [vm_compute; reflexivity|reflexivity..].
Defined.

(** ** Beyond the claims: the connection loop *)

Section BeyondLoop.
Context {W : Type} `{Platform W}.

(** One iteration of the connection loop, case by case. *)
Lemma connect_loop_step fuel devDirectory devAddress node0 (w : W) :
  connect_loop (S fuel) devDirectory devAddress (node0, w)
  = if rclcpp_ok w then
      match BNO055_open devDirectory devAddress w with
      | (inr _, w1) =>
          after ([EvOpen devDirectory devAddress true;
                  EvDeclareParameter "frame_id" "imu_link";
                  EvCreatePublisher "imu"; EvCreateTimer 10;
                  EvNodeConstructed]
                 ++ (if node0 is Some _ then [EvNodeDestroyed] else [])
                 ++ [EvSleep 1000])
            (connect_loop fuel devDirectory devAddress
               (Some (constructed w1), sleep_for 1000 w1))
      | (inl e, w1) =>
          if decide (e = runtime_error) then
            after [EvOpen devDirectory devAddress false;
                   EvLogError "Cannot connect to I2C device!";
                   EvSleep 1000]
              (connect_loop fuel devDirectory devAddress
                 (node0, sleep_for 1000 w1))
          else (Thrown e, (node0, w1), [EvOpen devDirectory devAddress false])
      end
    else (Returned tt, (node0, w), []).
Proof.
  cbn [connect_loop].
  unfold mbind, M_bind, on_world, ok, try_catch, make_shared_MinimalPublisher,
    MinimalPublisher_new, imu_open, declare_parameter, assign_node, get_local,
    modify_local, this_thread_sleep_for, RCLCPP_ERROR, emit, mret, M_ret,
    after, constructed, mbind, M_bind.
  destruct (rclcpp_ok w); [|reflexivity].
  destruct (BNO055_open devDirectory devAddress w) as [[e|[]] w1];
    cbn -[covariance_loop].
  - destruct (decide (e = runtime_error)) as [->|Ne]; cbn -[covariance_loop].
    + by destruct (connect_loop fuel _ _ _) as [[r s] tr].
    + reflexivity.
  - destruct node0; cbn -[covariance_loop];
      by destruct (connect_loop fuel _ _ _) as [[r s] tr].
Qed.

Lemma after_outcome {S A} tr0 (x : outcome A * S * list Event) :
  (after tr0 x).1 = x.1 /\ (after tr0 x).2 = tr0 ++ x.2.
Proof. by destruct x as [[r s] tr]. Qed.

(** X5: an iteration in which the device does not open keeps whatever node
    the variable held, reports the failure once, sleeps one second and goes
    on to the next iteration. *)
Theorem failed_open_keeps_the_node fuel devDirectory devAddress node0
    (w w1 : W) :
  rclcpp_ok w = true ->
  BNO055_open devDirectory devAddress w = (inl runtime_error, w1) ->
  connect_loop (S fuel) devDirectory devAddress (node0, w)
  = after [EvOpen devDirectory devAddress false;
           EvLogError "Cannot connect to I2C device!";
           EvSleep 1000]
      (connect_loop fuel devDirectory devAddress (node0, sleep_for 1000 w1)).
Proof.
  intros Hok Hopen. rewrite connect_loop_step, Hok, Hopen.
  by destruct (decide _).
Qed.

(** The loop is left only when [rclcpp::ok()] is false. *)
Lemma connect_loop_returns_when_not_ok fuel devDirectory devAddress :
  forall (s s' : option MinimalPublisher * W) tr,
    connect_loop fuel devDirectory devAddress s = (Returned tt, s', tr) ->
    rclcpp_ok s'.2 = false /\ (0 < fuel)%nat.
Proof.
  induction fuel as [|fuel IH]; intros [node0 w] s' tr; [done|].
  rewrite connect_loop_step.
  destruct (rclcpp_ok w) eqn:Hok.
  - destruct (BNO055_open devDirectory devAddress w) as [[e|u] w1].
    + destruct (decide _); [|done].
      destruct (connect_loop fuel _ _ _) as [[r s1] tr1] eqn:E. cbn.
      intros [= -> <- <-]. split; [|lia]. by destruct (IH _ _ _ E).
    + destruct (connect_loop fuel _ _ _) as [[r s1] tr1] eqn:E. cbn.
      intros [= -> <- <-]. split; [|lia]. by destruct (IH _ _ _ E).
  - intros [= <- <-]. cbn. split; [done|lia].
Qed.

Lemma sleeps_app tr1 tr2 : sleeps (tr1 ++ tr2) = sleeps tr1 ++ sleeps tr2.
Proof. apply omap_app. Qed.

Lemma opens_app tr1 tr2 : opens (tr1 ++ tr2) = opens tr1 ++ opens tr2.
Proof. apply omap_app. Qed.

Lemma logged_app tr1 tr2 : logged (tr1 ++ tr2) = logged tr1 ++ logged tr2.
Proof. apply omap_app. Qed.

Lemma open_targets_app tr1 tr2 :
  open_targets (tr1 ++ tr2) = open_targets tr1 ++ open_targets tr2.
Proof. apply omap_app. Qed.

Lemma constructions_app tr1 tr2 :
  constructions (tr1 ++ tr2) = (constructions tr1 + constructions tr2)%nat.
Proof. unfold constructions. by rewrite omap_app, length_app. Qed.

Lemma destructions_app tr1 tr2 :
  destructions (tr1 ++ tr2) = (destructions tr1 + destructions tr2)%nat.
Proof. unfold destructions. by rewrite omap_app, length_app. Qed.

Lemma timer_ticks_app tr1 tr2 :
  timer_ticks (tr1 ++ tr2) = (timer_ticks tr1 + timer_ticks tr2)%nat.
Proof. unfold timer_ticks. by rewrite omap_app, length_app. Qed.

Lemma live_app tr1 tr2 : live (tr1 ++ tr2) = live tr1 + live tr2.
Proof. unfold live. rewrite constructions_app, destructions_app. lia. Qed.


End BeyondLoop.

(** ** Beyond the claims: the address *)

Lemma hex_digit_range c d : hex_digit c = Some d -> 0 <= d <= 15.
Proof.
  unfold hex_digit. set (n := Z.of_N (N_of_ascii c)).
  destruct ((48 <=? n) && (n <=? 57)) eqn:E1.
  { intros [= <-]. apply andb_true_iff in E1 as [?%Z.leb_le ?%Z.leb_le]. lia. }
  destruct ((97 <=? n) && (n <=? 102)) eqn:E2.
  { intros [= <-]. apply andb_true_iff in E2 as [?%Z.leb_le ?%Z.leb_le]. lia. }
  destruct ((65 <=? n) && (n <=? 70)) eqn:E3; [|done].
  intros [= <-]. apply andb_true_iff in E3 as [?%Z.leb_le ?%Z.leb_le]. lia.
Qed.

Lemma hex_digits_range s : Forall (fun d => 0 <= d <= 15) (hex_digits s).
Proof.
  induction s as [|c s IH]; cbn; [constructor|].
  destruct (hex_digit c) as [d|] eqn:E; constructor; [|done].
  by apply (hex_digit_range c).
Qed.

Lemma foldl_hex_nonneg ds : forall acc,
  0 <= acc -> Forall (fun d => 0 <= d <= 15) ds ->
  0 <= foldl (fun acc d => 16 * acc + d) acc ds.
Proof.
  induction ds as [|d ds IH]; intros acc Ha Hd; cbn; [done|].
  inversion Hd; subst. apply IH; [lia|done].
Qed.

Lemma stoul16_range arg v : stoul16 arg = inr v -> 0 <= v <= ULONG_MAX.
Proof.
  unfold stoul16. destruct (split_sign (skip_spaces arg)) as [negative s].
  pose proof (hex_digits_range (skip_0x s)) as R.
  destruct (hex_digits (skip_0x s)) as [|d ds]; [done|].
  pose proof (foldl_hex_nonneg (d :: ds) 0 ltac:(lia) R) as N.
  fold (hex_value (d :: ds)) in N.
  destruct (Z.gtb_spec (hex_value (d :: ds)) ULONG_MAX) as [|Hle]; [done|].
  intros [= <-]. destruct negative; [|lia].
  pose proof (Z.mod_pos_bound (- hex_value (d :: ds)) (ULONG_MAX + 1)) as B.
  unfold ULONG_MAX in *. lia.
Qed.

Section BeyondArguments.
Context {W : Type} `{Platform W}.

(** Every way the parse of the address can go. *)
Lemma parse_address_spec arg (s : option MinimalPublisher * W) :
  parse_address arg s
  = match stoul16 arg with
    | inr v =>
        if v >? 255
        then (Returned (inl (-1)), s,
              [EvLogError "Device I2C adress is not valid!"])
        else (Returned (inr (v mod 256)), s, [])
    | inl e =>
        if decide (e = invalid_argument)
        then (Returned (inl (-1)), s, [EvLogError (not_a_proper_address arg)])
        else (Thrown e, s, [])
    end.
Proof.
  unfold parse_address, try_catch, RCLCPP_ERROR, emit, mbind, M_bind, mret,
    M_ret, of_result.
  destruct (stoul16 arg) as [e|v]; cbn.
  - by destruct (decide (e = invalid_argument)).
  - by destruct (v >? 255).
Qed.

(** X7: an address that [main] accepts is a byte: the parse hands on exactly
    the number [stoul] read, between 0 and 255, so the cast to [uint8_t]
    loses nothing, and accepting reports nothing. *)
Theorem accepted_address_is_a_byte arg (s s' : option MinimalPublisher * W)
    devAddress tr :
  parse_address arg s = (Returned (inr devAddress), s', tr) ->
  stoul16 arg = inr devAddress /\
  0 <= devAddress <= 255 /\
  s' = s /\ tr = [].
Proof.
  rewrite parse_address_spec.
  destruct (stoul16 arg) as [e|v] eqn:E.
  - by destruct (decide _).
  - destruct (Z.gtb_spec v 255) as [|Hle]; [done|].
    intros [= <- <- <-].
    destruct (stoul16_range arg v E) as [H0 _].
    rewrite Z.mod_small by lia. repeat split; lia.
Qed.

End BeyondArguments.

Lemma accepted_address_is_a_byte_witness :
  let s0 : option MinimalPublisher * Bench.bench := (None, Bench.healthy 100) in
  parse_address " 0x28" s0 = (Returned (inr 40), s0, []) /\
  stoul16 " 0x28" = inr 40 /\ 0 <= 40 <= 255 /\ s0 = s0 /\ [] = ([] : list Event).
Proof.
  cbv zeta.
  refine ((fun E => conj E (accepted_address_is_a_byte " 0x28" _ _ 40 _ E)) _).
  reflexivity.
Defined.

Lemma hex_digit_not_space c d : hex_digit c = Some d -> isspace c = false.
Proof.
  unfold hex_digit, isspace. set (n := Z.of_N (N_of_ascii c)).
  destruct ((48 <=? n) && (n <=? 57)) eqn:E1.
  { intros _. apply andb_true_iff in E1 as [?%Z.leb_le ?%Z.leb_le].
    apply orb_false_iff. split; [apply Z.eqb_neq; lia|].
    apply andb_false_iff. right. apply Z.leb_gt. lia. }
  destruct ((97 <=? n) && (n <=? 102)) eqn:E2.
  { intros _. apply andb_true_iff in E2 as [?%Z.leb_le ?%Z.leb_le].
    apply orb_false_iff. split; [apply Z.eqb_neq; lia|].
    apply andb_false_iff. right. apply Z.leb_gt. lia. }
  destruct ((65 <=? n) && (n <=? 70)) eqn:E3; [|done].
  intros _. apply andb_true_iff in E3 as [?%Z.leb_le ?%Z.leb_le].
  apply orb_false_iff. split; [apply Z.eqb_neq; lia|].
  apply andb_false_iff. right. apply Z.leb_gt. lia.
Qed.

Lemma hex_digit_not_sign c d :
  hex_digit c = Some d -> split_sign (String c "") = (false, String c "")
  /\ forall s, split_sign (String c s) = (false, String c s).
Proof.
  intros E.
  assert (N : c <> "-"%char /\ c <> "+"%char).
  { split; intros ->; discriminate E. }
  destruct N as [N1 N2].
  assert (G : forall s, split_sign (String c s) = (false, String c s)).
  { intros s. unfold split_sign.
    destruct c as [[] [] [] [] [] [] [] []]; try reflexivity;
      by (contradict N1 + contradict N2). }
  split; [apply G|exact G].
Qed.

Lemma hex_digit_not_x c d :
  hex_digit c = Some d -> Ascii.eqb c "x" || Ascii.eqb c "X" = false.
Proof.
  intros E. apply orb_false_iff.
  split; apply Ascii.eqb_neq; intros ->; discriminate E.
Qed.

(** X8: the parse does not look past the hexadecimal digits.  Two digits
    followed by a character that is not one, and by anything after it, are
    accepted as the byte the two digits spell. *)
Theorem address_with_trailing_text_is_accepted c1 c2 c3 rest d1 d2 :
  hex_digit c1 = Some d1 ->
  hex_digit c2 = Some d2 ->
  hex_digit c3 = None ->
  stoul16 (String c1 (String c2 (String c3 rest))) = inr (16 * d1 + d2) /\
  0 <= 16 * d1 + d2 <= 255.
Proof.
  intros E1 E2 E3.
  pose proof (hex_digit_range _ _ E1). pose proof (hex_digit_range _ _ E2).
  split; [|lia].
  unfold stoul16. cbn [skip_spaces].
  rewrite (hex_digit_not_space _ _ E1).
  destruct (hex_digit_not_sign _ _ E1) as [_ ->].
  assert (S0 : skip_0x (String c1 (String c2 (String c3 rest)))
               = String c1 (String c2 (String c3 rest))).
  { unfold skip_0x. rewrite (hex_digit_not_x _ _ E2).
    destruct c1 as [[] [] [] [] [] [] [] []]; reflexivity. }
  rewrite S0. cbn [hex_digits]. rewrite E1, E2, E3.
  unfold hex_value; cbn [foldl].
  destruct (Z.gtb_spec (16 * (16 * 0 + d1) + d2) ULONG_MAX) as [Hgt|_].
  - unfold ULONG_MAX in Hgt. lia.
  - f_equal; lia.
Qed.

Lemma address_with_trailing_text_is_accepted_witness :
  (hex_digit "2" = Some 2 /\ hex_digit "8" = Some 8 /\ hex_digit "h" = None) /\
  stoul16 "28h, the default" = inr (16 * 2 + 8) /\
  0 <= 16 * 2 + 8 <= 255.
Proof.
  refine ((fun E1 E2 E3 =>
    conj (conj E1 (conj E2 E3))
         (address_with_trailing_text_is_accepted
            "2" "8" "h" ", the default" 2 8 E1 E2 E3)) _ _ _);
    reflexivity.
Defined.

(** ** Beyond the claims: [main] as a whole *)

Section BeyondMain.
Context {W : Type} `{Platform W}.

(** [main] on arguments it accepts: the connection loop, then the shutdown;
    the event loop that comes between them finds [rclcpp::ok()] false. *)
Lemma main_accepted fuel argv v (s : option MinimalPublisher * W) :
  length argv = 3%nat ->
  stoul16 (argv !!! 2%nat) = inr v ->
  v <= 255 ->
  main fuel argv s
  = match connect_loop fuel (argv !!! 1%nat) v s with
    | (Returned _, (node, w), tr) =>
        (Returned 0, (None, w),
         tr ++ EvShutdown :: (if node is Some _ then [EvNodeDestroyed] else []))
    | (Thrown e, s', tr) => (Thrown e, s', tr)
    | (OutOfFuel, s', tr) => (OutOfFuel, s', tr)
    end.
Proof.
  intros Hlen Hv Hle. unfold main.
  destruct (decide (length argv <> 3%nat)); [done|].
  unfold mbind at 1, M_bind at 1. rewrite parse_address_spec, Hv.
  destruct (Z.gtb_spec v 255) as [|_]; [lia|].
  destruct (stoul16_range _ _ Hv) as [H0 _].
  rewrite Z.mod_small by lia.
  unfold mbind at 1, M_bind at 1.
  destruct (connect_loop fuel (argv !!! 1%nat) v s) as [[r [node w]] tr] eqn:E.
  destruct r as [[]|e|]; [|done..].
  destruct (connect_loop_returns_when_not_ok _ _ _ _ _ _ E) as [Hok Hf].
  cbn [snd] in Hok.
  destruct fuel as [|fuel]; [lia|].
  unfold mbind, M_bind, get_local, with_object, release_node, modify_local,
    emit, mret, M_ret.
  destruct node as [p|]; cbn [spin];
    unfold mbind, M_bind, on_world, ok, mret, M_ret; rewrite ?Hok; cbn;
    by rewrite ?app_nil_r.
Qed.

(** The connection loop delivers no tick and publishes nothing. *)
Lemma connect_loop_is_quiet fuel devDirectory devAddress :
  forall s : option MinimalPublisher * W,
    timer_ticks (connect_loop fuel devDirectory devAddress s).2 = 0%nat /\
    published (connect_loop fuel devDirectory devAddress s).2 = [].
Proof.
  induction fuel as [|fuel IH]; intros [node0 w]; [done|].
  rewrite connect_loop_step.
  destruct (rclcpp_ok w); [|done].
  destruct (BNO055_open devDirectory devAddress w) as [[e|u] w1].
  - destruct (decide _); [|done].
    specialize (IH (node0, sleep_for 1000 w1)).
    destruct (connect_loop fuel _ _ _) as [[r s1] tr1]. cbn in *.
    unfold timer_ticks, published in *. by cbn.
  - specialize (IH (Some (constructed w1), sleep_for 1000 w1)).
    destruct (connect_loop fuel _ _ _) as [[r s1] tr1]. cbn in *.
    unfold timer_ticks, published in *. by destruct node0; cbn.
Qed.

(** X9: whatever the arguments, the platform and the bound on the loops,
    [main] never delivers a timer tick and never publishes a message: the
    connection loop is left only when [rclcpp::ok()] is false, and the event
    loop entered then stops before its first tick. *)
Theorem main_never_publishes fuel argv (s : option MinimalPublisher * W) :
  timer_ticks (main fuel argv s).2 = 0%nat /\
  published (main fuel argv s).2 = [].
Proof.
  destruct (decide (length argv = 3%nat)) as [Hlen|Hlen].
  - destruct (stoul16 (argv !!! 2%nat)) as [e|v] eqn:Hv.
    + unfold main. destruct (decide _); [done|].
      unfold mbind, M_bind. rewrite parse_address_spec, Hv.
      by destruct (decide (e = invalid_argument)).
    + destruct (Z.gtb_spec v 255) as [Hgt|Hle].
      * unfold main. destruct (decide _); [done|].
        unfold mbind, M_bind.
        by rewrite (parse_address_too_large _ v s Hv Hgt).
      * rewrite (main_accepted fuel argv v s Hlen Hv Hle).
        destruct (connect_loop_is_quiet fuel (argv !!! 1%nat) v s) as [Q1 Q2].
        destruct (connect_loop fuel _ _ s) as [[r [node w]] tr].
        cbn [fst snd] in Q1, Q2.
        destruct r as [[]|e|]; cbn [fst snd]; [|done..].
        rewrite timer_ticks_app, published_app, Q1, Q2.
        by destruct node.
  - unfold main. by destruct (decide _).
Qed.

(** X10: with accepted arguments and a shutdown requested before [main]
    starts, [main] returns 0 without an open attempt, a construction or a
    report: all it does is shut down. *)
Theorem shutdown_before_start fuel argv v (w : W) :
  length argv = 3%nat ->
  stoul16 (argv !!! 2%nat) = inr v ->
  v <= 255 ->
  rclcpp_ok w = false ->
  main (S fuel) argv (None, w) = (Returned 0, (None, w), [EvShutdown]).
Proof.
  intros Hlen Hv Hle Hok.
  rewrite (main_accepted (S fuel) argv v _ Hlen Hv Hle).
  by rewrite connect_loop_step, Hok.
Qed.

(** X11: if [main] returns a non-zero status, the status is -1 and the
    arguments were invalid in one of the three ways: a count other than
    three, no hexadecimal number in the address, or an address above 255.
    No failure of the sensor makes [main] return non-zero. *)
Theorem nonzero_status_means_invalid_arguments fuel argv
    (s s' : option MinimalPublisher * W) status tr :
  main fuel argv s = (Returned status, s', tr) ->
  status <> 0 ->
  status = -1 /\
  (length argv <> 3%nat \/
   stoul16 (argv !!! 2%nat) = inl invalid_argument \/
   exists v, stoul16 (argv !!! 2%nat) = inr v /\ 255 < v).
Proof.
  intros E Hnz.
  destruct (decide (length argv = 3%nat)) as [Hlen|Hlen].
  - destruct (stoul16 (argv !!! 2%nat)) as [e|v] eqn:Hv.
    + revert E. unfold main. destruct (decide _); [done|].
      unfold mbind, M_bind. rewrite parse_address_spec, Hv.
      destruct (decide (e = invalid_argument)) as [->|]; [|done].
      intros [= <- <- <-]. split; [done|]. right. by left.
    + destruct (Z.gtb_spec v 255) as [Hgt|Hle].
      * revert E. unfold main. destruct (decide _); [done|].
        unfold mbind, M_bind.
        rewrite (parse_address_too_large _ v s Hv Hgt).
        intros [= <- <- <-]. split; [done|]. right. right. by exists v.
      * rewrite (main_accepted fuel argv v s Hlen Hv Hle) in E.
        destruct (connect_loop fuel _ _ s) as [[r [node w]] tr1].
        destruct r as [[]|e|]; [|done..].
        injection E as <- _ _. done.
  - revert E. unfold main. destruct (decide _); [|done].
    intros [= <- <- <-]. split; [done|]. by left.
Qed.

(** Every open attempt of the loop names the path and the address the loop
    was given. *)
Lemma connect_loop_targets fuel devDirectory devAddress :
  forall s : option MinimalPublisher * W,
    Forall (fun t => t = (devDirectory, devAddress))
           (open_targets (connect_loop fuel devDirectory devAddress s).2).
Proof.
  induction fuel as [|fuel IH]; intros [node0 w]; [constructor|].
  rewrite connect_loop_step.
  destruct (rclcpp_ok w); [|constructor].
  destruct (BNO055_open devDirectory devAddress w) as [[e|u] w1].
  - destruct (decide _); [|by repeat constructor].
    specialize (IH (node0, sleep_for 1000 w1)).
    destruct (connect_loop fuel _ _ _) as [[r s1] tr1]. cbn in *.
    by constructor.
  - specialize (IH (Some (constructed w1), sleep_for 1000 w1)).
    destruct (connect_loop fuel _ _ _) as [[r s1] tr1]. cbn in *.
    unfold open_targets in *. destruct node0; cbn; by constructor.
Qed.

(** X12: with accepted arguments, every attempt to open the sensor, however
    many follow, names the device path of the first argument and the address
    parsed from the second. *)
Theorem every_open_uses_the_arguments fuel argv v
    (s : option MinimalPublisher * W) :
  length argv = 3%nat ->
  stoul16 (argv !!! 2%nat) = inr v ->
  v <= 255 ->
  Forall (fun t => t = (argv !!! 1%nat, v)) (open_targets (main fuel argv s).2).
Proof.
  intros Hlen Hv Hle.
  rewrite (main_accepted fuel argv v s Hlen Hv Hle).
  pose proof (connect_loop_targets fuel (argv !!! 1%nat) v s) as T.
  destruct (connect_loop fuel _ _ s) as [[r [node w]] tr].
  cbn [fst snd] in T. destruct r as [[]|e|]; cbn [fst snd]; [|done..].
  rewrite open_targets_app. apply Forall_app. split; [done|].
  destruct node; constructor.
Qed.

End BeyondMain.

(** ** Beyond the claims: how many nodes are alive *)

Lemma live_nil : live [] = 0.
Proof. reflexivity. Qed.

Lemma live_cons_constructed tr : live (EvNodeConstructed :: tr) = 1 + live tr.
Proof. unfold live, constructions, destructions. cbn. lia. Qed.

Lemma live_cons_destroyed tr : live (EvNodeDestroyed :: tr) = live tr - 1.
Proof. unfold live, constructions, destructions. cbn. lia. Qed.

Lemma live_cons_other e tr :
  match e with EvNodeConstructed | EvNodeDestroyed => False | _ => True end ->
  live (e :: tr) = live tr.
Proof. by destruct e. Qed.

Ltac count_live :=
  cbn [take app];
  repeat first [ rewrite live_cons_constructed
               | rewrite live_cons_destroyed
               | rewrite live_nil
               | rewrite live_cons_other by exact I ].

Section BeyondLive.
Context {W : Type} `{Platform W}.

(** The nodes alive when the loop stops: the one the variable holds. *)
Lemma connect_loop_live_total fuel devDirectory devAddress :
  forall node0 (w : W),
    held node0 + live (connect_loop fuel devDirectory devAddress (node0, w)).2
    = held (connect_loop fuel devDirectory devAddress (node0, w)).1.2.1.
Proof.
  induction fuel as [|fuel IH]; intros node0 w; [cbn; rewrite live_nil; lia|].
  rewrite connect_loop_step.
  destruct (rclcpp_ok w); [|cbn; rewrite live_nil; lia].
  destruct (BNO055_open devDirectory devAddress w) as [[e|u] w1].
  - destruct (decide _).
    + pose proof (IH node0 (sleep_for 1000 w1)) as J.
      destruct (connect_loop fuel _ _ _) as [[r [node1 w2]] tr1].
      cbn [after fst snd] in *. by count_live.
    + cbn [fst snd]. count_live. lia.
  - pose proof (IH (Some (constructed w1)) (sleep_for 1000 w1)) as J.
    destruct (connect_loop fuel _ _ _) as [[r [node1 w2]] tr1].
    cbn [after fst snd held] in *.
    destruct node0; cbn [held app]; count_live; lia.
Qed.

(** X13: while the connection loop runs, the nodes alive are never more than
    two, counting the one the variable held at the start, and when the loop
    stops, for whatever reason, exactly the node the variable holds is
    alive. *)
Theorem connect_loop_holds_at_most_two fuel devDirectory devAddress :
  forall node0 (w : W) i,
    let out := connect_loop fuel devDirectory devAddress (node0, w) in
    0 <= held node0 + live (take i out.2) <= 2 /\
    held node0 + live out.2 = held out.1.2.1.
Proof.
  induction fuel as [|fuel IH]; intros node0 w i; cbv zeta.
  { cbn. rewrite take_nil, live_nil. destruct node0; cbn; lia. }
  rewrite connect_loop_step.
  destruct (rclcpp_ok w).
  2:{ cbn. rewrite take_nil, live_nil. destruct node0; cbn; lia. }
  destruct (BNO055_open devDirectory devAddress w) as [[e|u] w1].
  - destruct (decide _).
    + pose proof (IH node0 (sleep_for 1000 w1)) as J. cbv zeta in J.
      destruct (connect_loop fuel _ _ _) as [[r [node1 w2]] tr1].
      cbn [after fst snd] in *.
      split.
      * destruct i as [|[|[|i]]]; count_live;
          first [apply (J i) | destruct node0; cbn; lia].
      * count_live. apply (J 0%nat).
    + cbn [fst snd]. split.
      * destruct i as [|[|i]]; count_live; try rewrite take_nil, live_nil;
          destruct node0; cbn; lia.
      * count_live. lia.
  - pose proof (IH (Some (constructed w1)) (sleep_for 1000 w1)) as J.
    cbv zeta in J.
    destruct (connect_loop fuel _ _ _) as [[r [node1 w2]] tr1].
    cbn [after fst snd held] in *.
    destruct node0 as [p0|]; cbn [held app].
    + split.
      * destruct i as [|[|[|[|[|[|[|i]]]]]]]; count_live;
          first [pose proof (J i); lia | lia].
      * count_live. pose proof (J 0%nat). lia.
    + split.
      * destruct i as [|[|[|[|[|[|i]]]]]]; count_live;
          first [pose proof (J i); lia | lia].
      * count_live. pose proof (J 0%nat). lia.
Qed.

(** X14: when [main] returns, having started with no node, every node it
    constructed has been destroyed: as many destructions as constructions,
    and the variable is empty. *)
Theorem main_leaves_no_node_alive fuel argv (w : W) status s' tr :
  main fuel argv (None, w) = (Returned status, s', tr) ->
  live tr = 0 /\ s'.1 = None.
Proof.
  intros E.
  destruct (decide (length argv = 3%nat)) as [Hlen|Hlen].
  - destruct (stoul16 (argv !!! 2%nat)) as [e|v] eqn:Hv.
    + revert E. unfold main. destruct (decide _); [done|].
      unfold mbind, M_bind. rewrite parse_address_spec, Hv.
      destruct (decide (e = invalid_argument)) as [->|]; [|done].
      by intros [= <- <- <-].
    + destruct (Z.gtb_spec v 255) as [Hgt|Hle].
      * revert E. unfold main. destruct (decide _); [done|].
        unfold mbind, M_bind.
        rewrite (parse_address_too_large _ v _ Hv Hgt).
        by intros [= <- <- <-].
      * rewrite (main_accepted fuel argv v _ Hlen Hv Hle) in E.
        pose proof (connect_loop_live_total fuel (argv !!! 1%nat) v None w)
          as T.
        destruct (connect_loop fuel _ _ _) as [[r [node w1]] tr1].
        cbn [fst snd held] in T.
        destruct r as [[]|e|]; [|done..].
        injection E as <- <- <-. split; [|done].
        rewrite live_app. destruct node; count_live; cbn [held] in T; lia.
  - revert E. unfold main. destruct (decide _); [|done].
    by intros [= <- <- <-].
Qed.

End BeyondLive.

(** ** Beyond the claims, on the bench *)

Lemma failed_open_keeps_the_node_witness :
  exists w1,
    (rclcpp_ok flaky_bench = true /\
     BNO055_open "/dev/i2c-1" 40 flaky_bench = (inl runtime_error, w1)) /\
    connect_loop 3 "/dev/i2c-1" 40 (Some Bench.a_node, flaky_bench)
    = after [EvOpen "/dev/i2c-1" 40 false;
             EvLogError "Cannot connect to I2C device!";
             EvSleep 1000]
        (connect_loop 2 "/dev/i2c-1" 40
           (Some Bench.a_node, sleep_for 1000 w1)).
Proof.
  eexists.
  split; [split; reflexivity|].
  apply (failed_open_keeps_the_node 2 "/dev/i2c-1" 40 (Some Bench.a_node)
           flaky_bench); reflexivity.
Defined.


Lemma shutdown_before_start_witness :
  (length usual_argv = 3%nat /\
   stoul16 (usual_argv !!! 2%nat) = inr 40 /\
   40 <= 255 /\
   rclcpp_ok (Bench.healthy 0) = false) /\
  main 4 usual_argv (None, Bench.healthy 0)
  = (Returned 0, (None, Bench.healthy 0), [EvShutdown]).
Proof.
  refine ((fun H1 H2 H3 H4 =>
    conj (conj H1 (conj H2 (conj H3 H4)))
         (shutdown_before_start 3 usual_argv 40 (Bench.healthy 0)
            H1 H2 H3 H4)) _ _ _ _);
    [reflexivity|reflexivity|lia|reflexivity].
Defined.

Lemma nonzero_status_means_invalid_arguments_witness :
  exists s' tr,
    (main 5 ["bno055_publisher"; "/dev/i2c-1"; "1ff"] (None, Bench.healthy 2500)
       = (Returned (-1), s', tr) /\
     -1 <> 0) /\
    -1 = -1 /\
    (length ["bno055_publisher"; "/dev/i2c-1"; "1ff"] <> 3%nat \/
     stoul16 (["bno055_publisher"; "/dev/i2c-1"; "1ff"] !!! 2%nat)
       = inl invalid_argument \/
     exists v, stoul16 (["bno055_publisher"; "/dev/i2c-1"; "1ff"] !!! 2%nat)
                 = inr v /\ 255 < v).
Proof.
  eexists _, _.
  split; [split; [vm_compute; reflexivity|lia]|].
  eapply (nonzero_status_means_invalid_arguments 5
            ["bno055_publisher"; "/dev/i2c-1"; "1ff"]
            (None, Bench.healthy 2500) _ (-1)).
  - vm_compute. reflexivity.
  - lia.
Defined.

Lemma every_open_uses_the_arguments_witness :
  (length usual_argv = 3%nat /\
   stoul16 (usual_argv !!! 2%nat) = inr 40 /\
   40 <= 255) /\
  open_targets (main 5 usual_argv (None, flaky_bench)).2
    = [("/dev/i2c-1", 40); ("/dev/i2c-1", 40); ("/dev/i2c-1", 40)] /\
  Forall (fun t => t = (usual_argv !!! 1%nat, 40))
         (open_targets (main 5 usual_argv (None, flaky_bench)).2).
Proof.
  refine ((fun H1 H2 H3 =>
    conj (conj H1 (conj H2 H3))
      (conj _ (every_open_uses_the_arguments 5 usual_argv 40
                 (None, flaky_bench) H1 H2 H3))) _ _ _);
    [vm_compute; reflexivity|reflexivity|reflexivity|lia].
Defined.

Lemma main_leaves_no_node_alive_witness :
  exists s' tr,
    main 5 usual_argv (None, flaky_bench) = (Returned 0, s', tr) /\
    constructions tr = 2%nat /\
    live tr = 0 /\ s'.1 = None.
Proof.
  eexists _, _.
  split; [vm_compute; reflexivity|].
  split; [reflexivity|].
  eapply (main_leaves_no_node_alive 5 usual_argv flaky_bench 0).
  vm_compute. reflexivity.
Defined.

(** ** Beyond the claims: a constructor that fails *)

Section BeyondConstruction.
Context {W : Type} `{Platform W}.

(** X15: when the driver cannot open the device, the constructor throws
    what the driver threw before its body runs: no parameter is declared,
    no publisher and no timer are created, and no node comes to exist. *)
Theorem failed_open_constructs_nothing devDirectory devAddress (w w1 : W) e :
  BNO055_open devDirectory devAddress w = (inl e, w1) ->
  MinimalPublisher_new devDirectory devAddress w
    = (Thrown e, w1, [EvOpen devDirectory devAddress false]) /\
  make_shared_MinimalPublisher devDirectory devAddress w
    = (Thrown e, w1, [EvOpen devDirectory devAddress false]).
Proof.
  intros E.
  unfold make_shared_MinimalPublisher, MinimalPublisher_new, imu_open,
    mbind, M_bind.
  by rewrite E.
Qed.

End BeyondConstruction.

Lemma failed_open_constructs_nothing_witness :
  exists w1,
    BNO055_open "/dev/i2c-1" 40 flaky_bench = (inl runtime_error, w1) /\
    MinimalPublisher_new "/dev/i2c-1" 40 flaky_bench
      = (Thrown runtime_error, w1, [EvOpen "/dev/i2c-1" 40 false]) /\
    make_shared_MinimalPublisher "/dev/i2c-1" 40 flaky_bench
      = (Thrown runtime_error, w1, [EvOpen "/dev/i2c-1" 40 false]).
Proof.
  eexists.
  split; [reflexivity|].
  apply (failed_open_constructs_nothing "/dev/i2c-1" 40 flaky_bench).
  reflexivity.
Defined.
